(** * starfield-neo4j: the data-access layer, the StarView loader and the
      fallback dataset, embedded from the JavaScript sources.

    - [src/services/neo4j.service.js]  -> Module [Neo4jService]
    - [src/components/StarView.js]     -> Module [StarView]
    - [src/data/tempPapers.js]         -> Module [TempPapers]

    The Neo4j driver, the JavaScript engine's clock and [Math.random] are the
    environment of the program.  They are modelled as oracles: every call the
    code makes is answered by a function of the transcript so far, and the
    call together with its answer is appended to the transcript. *)

From Stdlib Require Import ZArith QArith Qround Lia Lqa.
From stdpp Require Import gmap strings list pretty.

Set Warnings "-register-all".

Local Open Scope Z_scope.
Local Open Scope string_scope.
Local Open Scope list_scope.

(** ** JavaScript values that cross the driver boundary *)

(** Primitive values, arrays, and the driver's [Node] objects (an [identity]
    and a [properties] object).  [undefined] is the [None] of an option. *)
Inductive JsValue : Type :=
| VNull
| VBool (b : bool)
| VNum (n : Z)
| VStr (s : string)
| VList (l : list JsValue)
| VNode (identity : Z) (properties : gmap string JsValue).

(** A plain JavaScript object used as a string-keyed map. *)
Abbreviation JsObject := (gmap string JsValue).

(** [if (v)] on a value. *)
Definition truthy (v : JsValue) : bool :=
  match v with
  | VNull => false
  | VBool b => b
  | VNum n => negb (n =? 0)%Z
  | VStr s => negb (String.eqb s "")
  | VList _ => true
  | VNode _ _ => true
  end.

(** An exception object: [error.code] (absent on a plain [Error]) and
    [error.message]. *)
Record JsError : Type := mkJsError { code : option string; message : string }.

(** [new Error(msg)] *)
Definition Error (msg : string) : JsError := {| code := None; message := msg |}.

(** [Number.prototype.toString] on an integral number (node identities are
    plain numbers because the driver is created with
    [disableLosslessIntegers: true]). *)
Definition toString (n : Z) : string := pretty n.

Definition newline : string := String (Ascii.ascii_of_nat 10) "".

(** ** The driver's data *)

Inductive AccessMode : Type := READ | WRITE.

Record SessionConfig : Type :=
  mkSessionConfig { database : string; defaultAccessMode : AccessMode }.

(** A result record: the values of one row, by column name. *)
Abbreviation DbRecord := (gmap string JsValue).

Record QueryResult : Type := mkQueryResult { records : list DbRecord }.

(** The parameter object bound to a query. *)
Abbreviation Params := (list (string * Z)).

(** ** Transcript of the interaction with the environment *)

Inductive Level : Type := LOG | ERROR.

Inductive Event : Type :=
| EvSession (cfg : SessionConfig) (answer : option JsError)
| EvRun (cfg : SessionConfig) (query : string) (params : Params)
        (answer : JsError + QueryResult)
| EvVerifyConnectivity (answer : JsError + string)
| EvClose (answer : option JsError)
| EvDateNow (answer : Z)
| EvConsole (lvl : Level) (label : string).

Abbreviation Trace := (list Event).

(** The environment.  [None] as the answer of [driver_session] and
    [session_close] means that the call completed. *)
Record World : Type := mkWorld {
  neo4j_int : JsValue -> JsError + Z;
  driver_session : Trace -> SessionConfig -> option JsError;
  session_run : Trace -> SessionConfig -> string -> Params -> JsError + QueryResult;
  driver_verifyConnectivity : Trace -> JsError + string;
  session_close : Trace -> option JsError;
  record_no_field : string -> JsError;
  type_error : JsError;
  Date_now : Trace -> Z
}.

(** [neo4jConfig] of [src/config/neo4j.config], which the service imports. *)
Record Neo4jConfig : Type := mkNeo4jConfig {
  uri : string; user : string; password : string; cfg_database : string
}.

(** ** Exceptions and transcript: the monad of the async functions *)

Definition M (A : Type) : Type := Trace -> (JsError + A) * Trace.

Definition ret {A} (a : A) : M A := fun h => (inr a, h).

Definition throw {A} (e : JsError) : M A := fun h => (inl e, h).

Definition bind {A B} (m : M A) (k : A -> M B) : M B :=
  fun h => match m h with
           | (inl e, h1) => (inl e, h1)
           | (inr a, h1) => k a h1
           end.

Declare Scope js_scope.
Delimit Scope js_scope with js.
Notation "x <- m ;; k" := (bind m (fun x => k))
  (at level 100, m at next level, right associativity) : js_scope.
Notation "m ;;; k" := (bind m (fun _ => k))
  (at level 100, right associativity) : js_scope.
Local Open Scope js_scope.

Definition emit (e : Event) : M unit := fun h => (inr tt, h ++ [e]).

(** Lift a synchronous computation that may throw. *)
Definition lift {A} (r : JsError + A) : M A := fun h => (r, h).

(** [try { body } catch (error) { handler }] *)
Definition try_catch {A} (body : M A) (handler : JsError -> M A) : M A :=
  fun h => match body h with
           | (inl e, h1) => handler e h1
           | (inr a, h1) => (inr a, h1)
           end.

(** [try { body } catch (error) { handler } finally { fin }]: the finally
    block runs after the body or the handler whatever their completion, and
    an exception of the finally block replaces that completion. *)
Definition try_catch_finally {A} (body : M A) (handler : JsError -> M A)
    (fin : M unit) : M A :=
  fun h => match try_catch body handler h with
           | (r, h1) => match fin h1 with
                        | (inl e, h2) => (inl e, h2)
                        | (inr _, h2) => (r, h2)
                        end
           end.

(** [array.map(f)] with a callback that may throw. *)
Fixpoint mapM {A B} (f : A -> M B) (l : list A) : M (list B) :=
  match l with
  | [] => ret []
  | x :: xs => y <- f x ;; ys <- mapM f xs ;; ret (y :: ys)
  end.

Definition console_log (label : string) : M unit := emit (EvConsole LOG label).
Definition console_error (label : string) : M unit := emit (EvConsole ERROR label).

(** ** src/services/neo4j.service.js *)

Module Neo4jService.
Section Service.

Variable w : World.
Variable neo4jConfig : Neo4jConfig.

Record Session : Type := mkSession { session_config : SessionConfig }.

(** [this.driver.session(cfg)] *)
Definition driver_session_call (cfg : SessionConfig) : M Session :=
  fun h => let a := driver_session w h cfg in
           (match a with Some e => inl e | None => inr (mkSession cfg) end,
            h ++ [EvSession cfg a]).

(** [session.run(query, params)] *)
Definition run (s : Session) (query : string) (params : Params) : M QueryResult :=
  fun h => let a := session_run w h (session_config s) query params in
           (a, h ++ [EvRun (session_config s) query params a]).

(** [this.driver.verifyConnectivity()] *)
Definition verifyConnectivity : M string :=
  fun h => let a := driver_verifyConnectivity w h in (a, h ++ [EvVerifyConnectivity a]).

(** [session.close()] *)
Definition close (s : Session) : M unit :=
  fun h => let a := session_close w h in
           (match a with Some e => inl e | None => inr tt end, h ++ [EvClose a]).

(** [record.get(key)] *)
Definition record_get (key : string) (r : DbRecord) : JsError + JsValue :=
  match r !! key with
  | Some f => inr f
  | None => inl (record_no_field w key)
  end.

(** [records[0]?.get(key)]; [None] is [undefined]. *)
Definition first_get (key : string) (rs : list DbRecord) : JsError + option JsValue :=
  match rs with
  | [] => inr None
  | r :: _ => match record_get key r with
              | inl e => inl e
              | inr f => inr (Some f)
              end
  end.

(** [node.properties]: a [TypeError] on [null], [undefined] on a value that
    is not a node. *)
Definition get_properties (node : JsValue) : JsError + option JsObject :=
  match node with
  | VNull => inl (type_error w)
  | VNode _ props => inr (Some props)
  | _ => inr None
  end.

(** [node.identity.toString()]: a [TypeError] unless [node] is a node. *)
Definition identity_toString (node : JsValue) : JsError + string :=
  match node with
  | VNode i _ => inr (toString i)
  | _ => inl (type_error w)
  end.

(** [...properties] inside an object literal; spreading [undefined] adds
    nothing. *)
Definition spread (properties : option JsObject) : JsObject := default ∅ properties.

Definition getSession : M Session :=
  try_catch
    (driver_session_call
       {| database := cfg_database neo4jConfig; defaultAccessMode := READ |})
    (fun error => console_error "Failed to create Neo4j session:" ;;; throw error).

Definition RETURN_1 : string := "RETURN 1 as n".
Definition DBMS_COMPONENTS : string :=
  "CALL dbms.components() YIELD name, versions, edition RETURN *".

Definition verifyConnection : M bool :=
  session <- getSession ;;
  try_catch_finally
    (console_log "Verifying Neo4j connection..." ;;;
     console_log "Connection settings:" ;;;
     result <- run session RETURN_1 [] ;;
     console_log "Basic connection test successful" ;;;
     serverInfo <- verifyConnectivity ;;
     console_log "Server info:" ;;;
     dbInfo <- run session DBMS_COMPONENTS [] ;;
     console_log "Database info:" ;;;
     ret true)
    (fun error =>
       console_error "Connection verification failed:" ;;;
       if decide (code error = Some "ServiceUnavailable") then
         throw (Error "Neo4j service is not available. Please check if the database is running and port 7687 is accessible.")
       else if decide (code error = Some "SecurityError") then
         throw (Error "Authentication failed. Please check your credentials.")
       else
         throw (Error ("Connection verification failed: " ++ message error)))
    (close session).

Definition DB_LABELS : string :=
  "CALL db.labels() YIELD label" ++ newline ++
  "         RETURN collect(label) as labels".

Definition MATCH_ALL : string :=
  "MATCH (n)" ++ newline ++
  "         RETURN n, labels(n) as labels".

(** The object literal [{ id: id, ...properties, labels }]: a spread property
    replaces a key written before it and is replaced by a key written after
    it. *)
Definition paper_object (id : string) (properties : option JsObject)
    (labels : JsValue) : JsObject :=
  <["labels" := labels]> (spread properties ∪ {["id" := VStr id]}).

(** The object literal [{ id: id, ...properties }]. *)
Definition node_object (id : string) (properties : option JsObject) : JsObject :=
  spread properties ∪ {["id" := VStr id]}.

(** The callback of [result.records.map] in [getAllPapers]. *)
Definition paper_of_record (record : DbRecord) : M JsObject :=
  node <- lift (record_get "n" record) ;;
  properties <- lift (get_properties node) ;;
  labels <- lift (record_get "labels" record) ;;
  id <- lift (identity_toString node) ;;
  console_log "Raw Node Data:" ;;;
  ret (paper_object id properties labels).

Definition getAllPapers : M (list JsObject) :=
  session <- getSession ;;
  try_catch_finally
    (console_log "Fetching all papers..." ;;;
     labelsResult <- run session DB_LABELS [] ;;
     labels <- lift (first_get "labels" (records labelsResult)) ;;
     console_log "Available labels:" ;;;
     result <- run session MATCH_ALL [] ;;
     console_log "Raw Neo4j Query Result:" ;;;
     papers <- mapM paper_of_record (records result) ;;
     console_log "Final Papers Array:" ;;;
     ret papers)
    (fun error =>
       console_error "Error fetching papers:" ;;;
       throw (Error ("Failed to fetch papers: " ++ message error)))
    (close session).

Definition PAPER_DETAILS : string :=
  "MATCH (n)" ++ newline ++
  "         WHERE id(n) = $paperId" ++ newline ++
  "         RETURN n".

Definition getPaperDetails (paperId : JsValue) : M (option JsObject) :=
  session <- getSession ;;
  try_catch_finally
    (console_log "Fetching paper details for:" ;;;
     i <- lift (neo4j_int w paperId) ;;
     result <- run session PAPER_DETAILS [("paperId", i)] ;;
     paper <- lift (first_get "n" (records result)) ;;
     match paper with
     | Some paper =>
         if truthy paper then
           id <- lift (identity_toString paper) ;;
           properties <- lift (get_properties paper) ;;
           ret (Some (node_object id properties))
         else ret None
     | None => ret None
     end)
    (fun error =>
       console_error "Error fetching paper details:" ;;;
       throw (Error ("Failed to fetch paper details: " ++ message error)))
    (close session).

Definition RELATED_PAPERS : string :=
  "MATCH (n)-[r]-(related)" ++ newline ++
  "         WHERE id(n) = $paperId" ++ newline ++
  "         RETURN related" ++ newline ++
  "         LIMIT 10".

(** The callback of [result.records.map] in [getRelatedPapers]. *)
Definition related_of_record (record : DbRecord) : M JsObject :=
  node <- lift (record_get "related" record) ;;
  id <- lift (identity_toString node) ;;
  properties <- lift (get_properties node) ;;
  ret (node_object id properties).

Definition getRelatedPapers (paperId : JsValue) : M (list JsObject) :=
  session <- getSession ;;
  try_catch_finally
    (console_log "Fetching related papers for:" ;;;
     i <- lift (neo4j_int w paperId) ;;
     result <- run session RELATED_PAPERS [("paperId", i)] ;;
     mapM related_of_record (records result))
    (fun error =>
       console_error "Error fetching related papers:" ;;;
       throw (Error ("Failed to fetch related papers: " ++ message error)))
    (close session).

End Service.
End Neo4jService.

(** ** src/components/StarView.js *)

Module StarView.

(** The five [useState] cells of the component. *)
Record State : Type := mkState {
  error : option string;
  loading : bool;
  papers : list string;
  lastFetchTime : option Z;
  connectionStatus : string
}.

Definition initial : State :=
  {| error := None; loading := true; papers := []; lastFetchTime := None;
     connectionStatus := "Checking connection..." |}.

Definition setError (e : string) (st : State) : State :=
  mkState (Some e) (loading st) (papers st) (lastFetchTime st) (connectionStatus st).
Definition setLoading (b : bool) (st : State) : State :=
  mkState (error st) b (papers st) (lastFetchTime st) (connectionStatus st).
Definition setPapers (ps : list string) (st : State) : State :=
  mkState (error st) (loading st) ps (lastFetchTime st) (connectionStatus st).
Definition setLastFetchTime (t : Z) (st : State) : State :=
  mkState (error st) (loading st) (papers st) (Some t) (connectionStatus st).
Definition setConnectionStatus (s : string) (st : State) : State :=
  mkState (error st) (loading st) (papers st) (lastFetchTime st) s.

(** The body of an effect: exceptions, the transcript, and the state cells
    written by the setters. *)
Definition C (A : Type) : Type := State -> Trace -> (JsError + A) * State * Trace.

Definition retC {A} (a : A) : C A := fun st h => (inr a, st, h).
Definition throwC {A} (e : JsError) : C A := fun st h => (inl e, st, h).
Definition bindC {A B} (m : C A) (k : A -> C B) : C B :=
  fun st h => match m st h with
              | (inl e, st1, h1) => (inl e, st1, h1)
              | (inr a, st1, h1) => k a st1 h1
              end.
(** [await] of a service call. *)
Definition await {A} (m : M A) : C A :=
  fun st h => match m h with (r, h1) => (r, st, h1) end.
(** A setter call. *)
Definition set (f : State -> State) : C unit := fun st h => (inr tt, f st, h).
Definition try_catchC {A} (body : C A) (handler : JsError -> C A) : C A :=
  fun st h => match body st h with
              | (inl e, st1, h1) => handler e st1 h1
              | (inr a, st1, h1) => (inr a, st1, h1)
              end.

Declare Scope comp_scope.
Delimit Scope comp_scope with comp.
Notation "x <- m ;; k" := (bindC m (fun x => k))
  (at level 100, m at next level, right associativity) : comp_scope.
Notation "m ;;; k" := (bindC m (fun _ => k))
  (at level 100, right associativity) : comp_scope.

Section Component.

Variable w : World.
Variable neo4jConfig : Neo4jConfig.

(** [Date.now()] *)
Definition Date_now_call : M Z :=
  fun h => let t := Date_now w h in (inr t, h ++ [EvDateNow t]).

(** [(Date.now() - lastFetchTime) / (1000 * 60 * 60) >= 24] *)
Definition hours_elapsed_ge_24 (now lastFetchTime : Z) : bool :=
  Qle_bool 24 (inject_Z (now - lastFetchTime) / inject_Z (1000 * 60 * 60)).

(** [lastFetchTime] is the value of the state cell in the render that created
    the closure; [!lastFetchTime] holds for [null] and for [0]. *)
Definition shouldFetchNewData (lastFetchTime : option Z) : M bool :=
  match lastFetchTime with
  | None => ret true
  | Some t =>
      if (t =? 0)%Z then ret true
      else now <- Date_now_call ;; ret (hours_elapsed_ge_24 now t)
  end.

(** [paper.name]; [None] is [undefined]. *)
Definition paper_name (paper : JsObject) : option JsValue := paper !! "name".

(** [name && typeof name === 'string'], with the string it lets through. *)
Definition string_name (name : option JsValue) : option string :=
  match name with
  | Some (VStr s) => if String.eqb s "" then None else Some s
  | _ => None
  end.

(** [neo4jData.map(paper => paper.name).filter(name => name && typeof name === 'string')] *)
Definition names_of (neo4jData : list JsObject) : list string :=
  omap string_name (map paper_name neo4jData).

Local Open Scope comp_scope.

Definition fetchData (render : State) : C unit :=
  try_catchC
    (should <- await (shouldFetchNewData (lastFetchTime render)) ;;
     if negb should then
       await (console_log "Using cached data from:") ;;;
       set (setLoading false)
     else
       set (setConnectionStatus "Connecting to Neo4j...") ;;;
       isConnected <- await (Neo4jService.verifyConnection w neo4jConfig) ;;
       (if negb isConnected
        then throwC (Error "Failed to connect to Neo4j database")
        else retC tt) ;;;
       set (setConnectionStatus "Connected to Neo4j. Loading papers...") ;;;
       neo4jData <- await (Neo4jService.getAllPapers w neo4jConfig) ;;
       let names := names_of neo4jData in
       set (setPapers names) ;;;
       now <- await Date_now_call ;;
       set (setLastFetchTime now) ;;;
       set (setLoading false) ;;;
       if (length names =? 0)%nat
       then set (setError "No papers found in the database")
       else retC tt)
    (fun err =>
       await (console_error "Error fetching data:") ;;;
       set (setError (message err)) ;;;
       set (setLoading false)).

(** One run of the effect [useEffect(() => { ...; fetchData(); }, [lastFetchTime])]
    from the render with state [st]: the state and transcript it ends with. *)
Definition run_effect (st : State) (h : Trace) : State * Trace :=
  match fetchData st st h with (_, st1, h1) => (st1, h1) end.

End Component.

(** The props of one [<PaperNode>] element; its [position] (a random point
    computed with floating-point trigonometry) is left out. *)
Record PaperNode : Type := mkPaperNode { key : nat; name : string; index : nat }.

(** [papers.map((name, index) => <PaperNode key={index} name={name} index={index} .../>)] *)
Definition StarScene (papers : list string) : list PaperNode :=
  imap (fun index name => mkPaperNode index name index) papers.

Inductive View : Type :=
| LoadingView (status : string)
| ErrorView (msg : string)
| SceneView (nodes : list PaperNode) (total : nat).

(** The [return] of the component function. *)
Definition render (st : State) : View :=
  if loading st then LoadingView (connectionStatus st)
  else match error st with
       | Some e => if String.eqb e "" then SceneView (StarScene (papers st)) (length (papers st))
                   else ErrorView e
       | None => SceneView (StarScene (papers st)) (length (papers st))
       end.

(** *** PaperNode: the label text *)

(** [name.length] and [name.substring] count UTF-16 code units: here a
    JavaScript string is the list of its code units. *)
Abbreviation JsString := (list N).

(** The code units of a text given by its UTF-8 bytes, as the string
    literals of this file are: one unit for a sequence of one, two or three
    bytes, a surrogate pair for a sequence of four; a sequence cut short
    gives U+FFFD. *)
Fixpoint utf16 (bytes : list N) : JsString :=
  match bytes with
  | [] => []
  | b0 :: r0 =>
      if (b0 <? 128)%N then b0 :: utf16 r0
      else if (b0 <? 224)%N then
        match r0 with
        | b1 :: r1 => ((b0 mod 32) * 64 + b1 mod 64)%N :: utf16 r1
        | [] => [65533%N]
        end
      else if (b0 <? 240)%N then
        match r0 with
        | b1 :: b2 :: r2 =>
            ((b0 mod 16) * 4096 + (b1 mod 64) * 64 + b2 mod 64)%N :: utf16 r2
        | _ => [65533%N]
        end
      else
        match r0 with
        | b1 :: b2 :: b3 :: r3 =>
            let v := ((b0 mod 8) * 262144 + (b1 mod 64) * 4096
                      + (b2 mod 64) * 64 + b3 mod 64 - 65536)%N in
            (55296 + v / 1024)%N :: (56320 + v mod 1024)%N :: utf16 r3
        | _ => [65533%N]
        end
  end.

(** The JavaScript string that a string of the model stands for. *)
Definition code_units (s : string) : JsString :=
  utf16 (map Ascii.N_of_ascii (String.list_ascii_of_string s)).

(** [name && name.length > 30 ? name.substring(0, 30) + '...' : name || 'Unknown']
    on a string [name]. *)
Definition displayName (name : JsString) : JsString :=
  if negb (length name =? 0)%nat && (30 <? length name)%nat
  then take 30 name ++ code_units "..."
  else if negb (length name =? 0)%nat then name else code_units "Unknown".

(** The text of the label of a node. *)
Definition label_text (node : PaperNode) : JsString :=
  displayName (code_units (name node)).

(** *** CameraController: the pressed-keys state *)

Record KeyboardEvent : Type := mkKeyboardEvent { ev_key : string; shiftKey : bool }.

(** The [keys] object; reading a key that is absent gives [undefined]. *)
Abbreviation Keys := (gmap string bool).

Definition initial_keys : Keys :=
  <["w" := false]> (<["a" := false]> (<["s" := false]> (<["d" := false]>
    (<["shift" := false]> (<["space" := false]> ∅))))).

(** [{ ..., k: v }] where [v] may be [undefined]. *)
Definition set_key (k : string) (v : option bool) (keys : Keys) : Keys :=
  match v with
  | Some b => <[k := b]> keys
  | None => delete k keys
  end.

(** [keys.k] used as a condition. *)
Definition pressed (keys : Keys) (k : string) : bool := default false (keys !! k).

(** [['w', 'a', 's', 'd'].includes(key)] *)
Definition is_move_key (key : string) : bool :=
  existsb (String.eqb key) ["w"; "a"; "s"; "d"].

Section Keyboard.

(** [String.prototype.toLowerCase] *)
Variable toLowerCase : string -> string.

Definition handleKeyDown (event : KeyboardEvent) (prev : Keys) : Keys :=
  let key := toLowerCase (ev_key event) in
  if is_move_key key || String.eqb (ev_key event) " " || shiftKey event then
    set_key "shift" (Some (shiftKey event))
      (set_key "space" (if String.eqb (ev_key event) " " then Some true else prev !! "space")
         (set_key key (Some true) prev))
  else prev.

Definition handleKeyUp (event : KeyboardEvent) (prev : Keys) : Keys :=
  let key := toLowerCase (ev_key event) in
  if is_move_key key || String.eqb (ev_key event) " " then
    set_key "shift" (Some (shiftKey event))
      (set_key "space" (if String.eqb (ev_key event) " " then Some false else prev !! "space")
         (set_key key (Some false) prev))
  else prev.

End Keyboard.

(** [const moveSpeed = keys.shift ? 10 : 5] *)
Definition moveSpeed (keys : Keys) : Z := if pressed keys "shift" then 10 else 5.

(** [keys.w || keys.a || keys.s || keys.d || keys.space] *)
Definition hasManualInput (keys : Keys) : bool :=
  pressed keys "w" || pressed keys "a" || pressed keys "s" || pressed keys "d"
  || pressed keys "space".

End StarView.

(** ** src/data/tempPapers.js *)

Module TempPapers.

Record Paper : Type := mkPaper { id : string; name : string; labels : list string }.

Definition tempPapers : list Paper := [
  mkPaper "915" "国际学生活动 (UIC International Student Activities)" ["Paper"; "Activity"];
  mkPaper "916" "The Nexus (SHSID)" ["Paper"; "Club"];
  mkPaper "917" "学生会 (Student Council - SCIS)" ["Paper"; "Organization"];
  mkPaper "918" "茱莉亚学院合作项目 (Juilliard Collaboration Projects)" ["Paper"; "Project"];
  mkPaper "919" "Live 2 Drama (SHSID)" ["Paper"; "Club"];
  mkPaper "920" "MIT合作STEAM项目 (MIT Collaboration STEAM Projects)" ["Paper"; "Project"];
  mkPaper "921" "Phoenix Squadron Drone Club (Concordia Shanghai)" ["Paper"; "Club"];
  mkPaper "922" "World Scholar's Cup (SHSID)" ["Paper"; "Competition"];
  mkPaper "923" "ASDAN国际STEM挑战赛 (ASDAN International STEM Challenges)" ["Paper"; "Competition"];
  mkPaper "924" "Social Responsibility" ["Paper"; "Concept"];
  mkPaper "925" "Innovation" ["Paper"; "Concept"]
].

(** [Math.random] is an oracle: the value of its n-th call.  Code that draws
    random numbers threads the number of calls made so far. *)
Definition R (A : Type) : Type := nat -> A * nat.

Definition retR {A} (a : A) : R A := fun n => (a, n).
Definition bindR {A B} (m : R A) (k : A -> R B) : R B :=
  fun n => match m n with (a, n1) => k a n1 end.

Declare Scope rand_scope.
Delimit Scope rand_scope with rand.
Notation "x <- m ;; k" := (bindR m (fun x => k))
  (at level 100, m at next level, right associativity) : rand_scope.

(** [Math.floor] *)
Definition Math_floor (x : Q) : Z := Qfloor x.

(** [array[i]]; the string "undefined" stands for the [undefined] that an
    index outside the array reads. *)
Definition at_index (array : list string) (i : Z) : string :=
  if (i <? 0)%Z then "undefined" else nth (Z.to_nat i) array "undefined".

(** [array.includes(x)] *)
Definition includes (array : list string) (x : string) : bool :=
  existsb (String.eqb x) array.

(** [for (const x of xs) acc = body(x, acc)] with random draws in the body. *)
Fixpoint for_each {X A} (xs : list X) (body : X -> A -> R A) (acc : A) : R A :=
  match xs with
  | [] => retR acc
  | x :: rest => bindR (body x acc) (for_each rest body)
  end.

Section Generate.

(** The value of the n-th call of [Math.random()]. *)
Variable random : nat -> Q.

Definition Math_random : R Q := fun n => (random n, S n).

Local Open Scope rand_scope.

Definition labels_pool : list string :=
  ["Paper"; "Activity"; "Club"; "Organization"; "Project"; "Competition"; "Concept"].

Definition activities : list string := [
  "Science Fair";
  "Math Competition";
  "Debate Club";
  "Art Exhibition";
  "Music Festival";
  "Sports Tournament";
  "Cultural Exchange";
  "Research Project";
  "Community Service";
  "Environmental Initiative"
].

Definition schools : list string := ["SHSID"; "SCIS"; "Concordia"; "UIC"].

(** The body of the loop over [j]. *)
Definition pick_label (j : Z) (paperLabels : list string) : R (list string) :=
  r <- Math_random ;;
  let randomLabel :=
    at_index labels_pool
      (Math_floor (r * inject_Z (Z.of_nat (length labels_pool) - 1)) + 1) in
  retR (if negb (includes paperLabels randomLabel)
        then paperLabels ++ [randomLabel]
        else paperLabels).

(** The body of the loop over [i]. *)
Definition make_paper (i : Z) (papers : list Paper) : R (list Paper) :=
  r <- Math_random ;;
  let numLabels := (Math_floor (r * 3) + 1)%Z in
  paperLabels <- for_each (seqZ 0 numLabels) pick_label ["Paper"] ;;
  r <- Math_random ;;
  let activity :=
    at_index activities (Math_floor (r * inject_Z (Z.of_nat (length activities)))) in
  r <- Math_random ;;
  let school := at_index schools (Math_floor (r * 4)) in
  let name := (activity ++ " (" ++ school ++ ")")%string in
  retR (papers ++ [mkPaper (toString i) name paperLabels]).

(** [for (let i = 926; i <= 2000; i++)] runs its body for the integers of
    [seqZ 926 (2000 - 926 + 1)]; likewise [for (let j = 0; j < numLabels; j++)]
    for those of [seqZ 0 numLabels]. *)
Definition generateMorePapers : R (list Paper) :=
  for_each (seqZ 926 (2000 - 926 + 1)) make_paper tempPapers.

(** [const allPapers = generateMorePapers()], evaluated once when the module
    is loaded. *)
Definition allPapers : list Paper := fst (generateMorePapers 0%nat).

End Generate.
End TempPapers.

(** ** Creating and shutting down the driver

    The constructor and [close] of [src/services/neo4j.service.js], and the
    connection-test script.  Their transcript has the driver's creation and
    shutdown besides sessions and queries. *)

Module Lifecycle.

Inductive LEvent : Type :=
| LDriver (uri user password : string) (answer : JsError + bool)
| LSession (answer : option JsError)
| LRun (query : string) (answer : JsError + QueryResult)
| LSessionClose (answer : option JsError)
| LDriverClose (answer : option JsError)
| LConsole (lvl : Level) (label : string).

Abbreviation LTrace := (list LEvent).

(** The environment.  [neo4j.driver] answers with an exception or with what
    it returned, of which the code only tests whether it is truthy. *)
Record LWorld : Type := mkLWorld {
  neo4j_driver : LTrace -> string -> string -> string -> JsError + bool;
  l_session : LTrace -> option JsError;
  l_run : LTrace -> string -> JsError + QueryResult;
  l_session_close : LTrace -> option JsError;
  l_driver_close : LTrace -> option JsError;
  l_record_no_field : string -> JsError;
  l_type_error : JsError
}.

Definition L (A : Type) : Type := LTrace -> (JsError + A) * LTrace.

Definition retL {A} (a : A) : L A := fun h => (inr a, h).
Definition throwL {A} (e : JsError) : L A := fun h => (inl e, h).
Definition bindL {A B} (m : L A) (k : A -> L B) : L B :=
  fun h => match m h with
           | (inl e, h1) => (inl e, h1)
           | (inr a, h1) => k a h1
           end.
Definition liftL {A} (r : JsError + A) : L A := fun h => (r, h).
Definition logL (lvl : Level) (label : string) : L unit :=
  fun h => (inr tt, h ++ [LConsole lvl label]).

(** [try { body } catch (error) { handler }] *)
Definition try_catchL {A} (body : L A) (handler : JsError -> L A) : L A :=
  fun h => match body h with
           | (inl e, h1) => handler e h1
           | (inr a, h1) => (inr a, h1)
           end.

(** [try { body } catch (error) { handler } finally { fin }] *)
Definition try_catch_finallyL {A} (body : L A) (handler : JsError -> L A)
    (fin : L unit) : L A :=
  fun h => match try_catchL body handler h with
           | (r, h1) => match fin h1 with
                        | (inl e, h2) => (inl e, h2)
                        | (inr _, h2) => (r, h2)
                        end
           end.

Declare Scope life_scope.
Delimit Scope life_scope with life.
Notation "x <- m ;; k" := (bindL m (fun x => k))
  (at level 100, m at next level, right associativity) : life_scope.
Notation "m ;;; k" := (bindL m (fun _ => k))
  (at level 100, right associativity) : life_scope.

Section Driver.

Variable w : LWorld.

Local Open Scope life_scope.

(** [neo4j.driver(uri, neo4j.auth.basic(user, password), options)] *)
Definition neo4j_driver_call (uri user password : string) : L bool :=
  fun h => let a := neo4j_driver w h uri user password in
           (a, h ++ [LDriver uri user password a]).

(** [driver.session()] *)
Definition session_call : L unit :=
  fun h => let a := l_session w h in
           (match a with Some e => inl e | None => inr tt end, h ++ [LSession a]).

(** [session.run(query)] *)
Definition run_call (query : string) : L QueryResult :=
  fun h => let a := l_run w h query in (a, h ++ [LRun query a]).

(** [session.close()] *)
Definition session_close_call : L unit :=
  fun h => let a := l_session_close w h in
           (match a with Some e => inl e | None => inr tt end, h ++ [LSessionClose a]).

(** [driver.close()] *)
Definition driver_close_call : L unit :=
  fun h => let a := l_driver_close w h in
           (match a with Some e => inl e | None => inr tt end, h ++ [LDriverClose a]).

(** [uri.startsWith(prefix)] *)
Definition startsWith (uri pre : string) : bool := String.prefix pre uri.

(** [constructor()] of [Neo4jService]; it returns when [this.driver] is set. *)
Definition constructor (neo4jConfig : Neo4jConfig) : L unit :=
  logL LOG "Initializing Neo4j connection with config:" ;;;
  try_catchL
    ((if negb (startsWith (uri neo4jConfig) "bolt://")
         && negb (startsWith (uri neo4jConfig) "neo4j://")
      then throwL (Error ("Invalid Neo4j URI: " ++ uri neo4jConfig
                          ++ ". Must start with 'bolt://' or 'neo4j://'"))
      else retL tt) ;;;
     driver <- neo4j_driver_call (uri neo4jConfig) (user neo4jConfig)
                 (password neo4jConfig) ;;
     (if negb driver
      then throwL (Error "Failed to create Neo4j driver instance")
      else retL tt) ;;;
     logL LOG "Neo4j driver initialized successfully with settings:")
    (fun error =>
       logL ERROR "Failed to initialize Neo4j driver:" ;;;
       throwL (Error ("Neo4j initialization failed: " ++ message error))).

(** [close()] of [Neo4jService] *)
Definition close : L unit :=
  try_catchL
    (driver_close_call ;;;
     logL LOG "Neo4j connection closed successfully")
    (fun error => logL ERROR "Error closing Neo4j connection:").

(** [result.records[0].get(key)], without optional chaining. *)
Definition first_record_get (key : string) (result : QueryResult) : JsError + JsValue :=
  match records result with
  | [] => inl (l_type_error w)
  | r :: _ => match r !! key with
              | Some v => inr v
              | None => inl (l_record_no_field w key)
              end
  end.

(** [result.records[0].toObject()] *)
Definition first_record_toObject (result : QueryResult) : JsError + DbRecord :=
  match records result with
  | [] => inl (l_type_error w)
  | r :: _ => inr r
  end.

(** [testConnection()] of the connection-test script. *)
Definition testConnection : L unit :=
  logL LOG "Starting connection test..." ;;;
  driver <- neo4j_driver_call "bolt://127.0.0.1:7687" "neo4j" "ssss8888" ;;
  logL LOG "Driver created with settings:" ;;;
  session_call ;;;
  try_catch_finallyL
    (logL LOG "Session created, testing connection..." ;;;
     logL LOG "Running test query..." ;;;
     result <- run_call "RETURN 1 as n" ;;
     n <- liftL (first_record_get "n" result) ;;
     logL LOG "Basic connection test successful:" ;;;
     logL LOG "Getting database info..." ;;;
     dbInfo <- run_call "CALL dbms.components() YIELD name, versions, edition RETURN *" ;;
     info <- liftL (first_record_toObject dbInfo) ;;
     logL LOG "Database info:" ;;;
     logL LOG "Connection test completed successfully!")
    (fun error =>
       logL ERROR "Connection test failed with error:" ;;;
       logL ERROR "Error details:" ;;;
       if decide (code error = Some "ServiceUnavailable") then
         logL ERROR "Please check if:" ;;;
         logL ERROR "1. Neo4j server is running" ;;;
         logL ERROR "2. Port 7687 is accessible" ;;;
         logL ERROR "3. Server configuration matches:" ;;;
         logL ERROR "   - server.bolt.enabled=true" ;;;
         logL ERROR "   - server.bolt.tls_level=DISABLED" ;;;
         logL ERROR "   - server.bolt.listen_address=:7687"
       else retL tt)
    (logL LOG "Closing session..." ;;;
     session_close_call ;;;
     logL LOG "Closing driver..." ;;;
     driver_close_call ;;;
     logL LOG "Cleanup completed.").

(** The script's last statement: [testConnection().catch(error => { ...;
    process.exit(1); })].  [Some 1] is the exit code forced by the handler,
    [None] means the script runs to its end. *)
Definition script (h : LTrace) : option Z * LTrace :=
  match testConnection h with
  | (inl error, h1) => (Some 1, h1 ++ [LConsole ERROR "Unhandled error in test connection:"])
  | (inr _, h1) => (None, h1)
  end.

End Driver.
End Lifecycle.

(** ** Observations on transcripts *)

(** What a computation appends to the transcript [h] it starts from. *)
Definition emitted {A} (m : M A) (h : Trace) : Trace := drop (length h) (snd (m h)).

(** The exception a computation ends with, if any. *)
Definition thrown {A} (m : M A) (h : Trace) : option JsError :=
  match fst (m h) with inl e => Some e | inr _ => None end.

(** The [session.run] calls of a transcript: query text and bound parameters. *)
Definition run_calls (t : Trace) : list (string * Params) :=
  omap (fun e => match e with EvRun _ q ps _ => Some (q, ps) | _ => None end) t.

Definition queries (t : Trace) : list string := map fst (run_calls t).

(** The sessions a transcript opens and the [session.close] calls it makes. *)
Definition opened (t : Trace) : list SessionConfig :=
  omap (fun e => match e with EvSession c None => Some c | _ => None end) t.

Definition closes (t : Trace) : list (option JsError) :=
  omap (fun e => match e with EvClose a => Some a | _ => None end) t.

Definition is_console (e : Event) : bool :=
  match e with EvConsole _ _ => true | _ => false end.

(** The four operations of the service, run for their effect. *)
Inductive Operation : Type :=
| VerifyConnection
| GetAllPapers
| GetPaperDetails (paperId : JsValue)
| GetRelatedPapers (paperId : JsValue).

Definition perform (w : World) (cfg : Neo4jConfig) (op : Operation) : M unit :=
  match op with
  | VerifyConnection => _ <- Neo4jService.verifyConnection w cfg ;; ret tt
  | GetAllPapers => _ <- Neo4jService.getAllPapers w cfg ;; ret tt
  | GetPaperDetails paperId => _ <- Neo4jService.getPaperDetails w cfg paperId ;; ret tt
  | GetRelatedPapers paperId => _ <- Neo4jService.getRelatedPapers w cfg paperId ;; ret tt
  end.

(** The session configuration the service asks the driver for. *)
Definition service_session (cfg : Neo4jConfig) : SessionConfig :=
  {| database := cfg_database cfg; defaultAccessMode := READ |}.

(** A query that the driver answered with an error. *)
Definition failed_run (e : Event) : bool :=
  match e with EvRun _ _ _ (inl _) => true | _ => false end.

(** What follows the first failed query of a transcript, if one failed. *)
Fixpoint after_failed_run (t : Trace) : option Trace :=
  match t with
  | [] => None
  | e :: rest => if failed_run e then Some rest else after_failed_run rest
  end.

(** When a session was opened, the last event is its [session.close]. *)
Definition closed_last (t : Trace) : bool :=
  match opened t with
  | [] => true
  | _ :: _ => match last t with Some (EvClose _) => true | _ => false end
  end.

(** The six query texts of the service. *)
Definition read_queries : list string :=
  [Neo4jService.RETURN_1; Neo4jService.DBMS_COMPONENTS; Neo4jService.DB_LABELS;
   Neo4jService.MATCH_ALL; Neo4jService.PAPER_DETAILS; Neo4jService.RELATED_PAPERS].

(** Lower case of the letters A to Z. *)
Definition lower_char (c : Ascii.ascii) : Ascii.ascii :=
  let n := Ascii.nat_of_ascii c in
  if ((65 <=? n) && (n <=? 90))%nat then Ascii.ascii_of_nat (n + 32) else c.

Fixpoint lower_ascii (s : string) : string :=
  match s with
  | EmptyString => EmptyString
  | String c rest => String (lower_char c) (lower_ascii rest)
  end.

(** A character of a Cypher word: a letter, a digit, [_] or [.]. *)
Definition is_word_char (c : Ascii.ascii) : bool :=
  let n := Ascii.nat_of_ascii c in
  ((97 <=? n) && (n <=? 122) || (65 <=? n) && (n <=? 90)
   || (48 <=? n) && (n <=? 57) || (n =? 95) || (n =? 46))%nat.

(** The words of a text, in order; [word] is the word being read. *)
Fixpoint words_from (text : string) (word : string) : list string :=
  match text with
  | EmptyString => if String.eqb word "" then [] else [word]
  | String c rest =>
      if is_word_char c then words_from rest (word ++ String c "")
      else if String.eqb word "" then words_from rest ""
           else word :: words_from rest ""
  end.

(** Cypher keywords are not case sensitive: the words of a query are taken
    in lower case. *)
Definition query_words (q : string) : list string := words_from (lower_ascii q) "".

(** The words that start a clause or a command of Cypher that writes data,
    schema or administration state. *)
Definition writing_words : list string :=
  ["create"; "merge"; "set"; "delete"; "detach"; "remove"; "foreach"; "insert";
   "drop"; "alter"; "rename"; "grant"; "deny"; "revoke"; "start"; "stop";
   "terminate"; "enable"; "deallocate"; "reallocate"].

(** The built-in procedures the service may call: both only report. *)
Definition read_procedures : list string := ["db.labels"; "dbms.components"].

(** Every CALL is followed by the name of one of the [allowed] procedures. *)
Fixpoint calls_only (allowed : list string) (ws : list string) : bool :=
  match ws with
  | [] => true
  | w :: rest =>
      (if String.eqb w "call"
       then match rest with
            | p :: _ => existsb (String.eqb p) allowed
            | [] => false
            end
       else true)
      && calls_only allowed rest
  end.

(** A read query: none of its words, in whatever case, is a writing word,
    and it calls no procedure but the read procedures. *)
Definition is_read_query (q : string) : bool :=
  forallb (fun w => negb (existsb (String.eqb w) writing_words)) (query_words q)
  && calls_only read_procedures (query_words q).

Definition is_READ (c : SessionConfig) : bool :=
  match defaultAccessMode c with READ => true | WRITE => false end.

(** An event that opens a session or runs a query does so in READ mode, and
    the text that is run is a read query and one of [read_queries]. *)
Definition read_only_event (e : Event) : bool :=
  match e with
  | EvSession c _ => is_READ c
  | EvRun c q _ _ =>
      is_READ c && is_read_query q && existsb (String.eqb q) read_queries
  | _ => true
  end.

(** The database after the queries of a transcript, for a server whose
    reaction to a query in a session of a given access mode is [step]. *)
Fixpoint replay {Db : Type} (step : AccessMode -> string -> Params -> Db -> Db)
    (t : Trace) (d : Db) : Db :=
  match t with
  | [] => d
  | EvRun c q ps _ :: rest => replay step rest (step (defaultAccessMode c) q ps d)
  | _ :: rest => replay step rest d
  end.

(** The errors the driver answered to [session.run] calls, and the errors it
    answered to any call. *)
Definition query_errors (t : Trace) : list JsError :=
  omap (fun e => match e with EvRun _ _ _ (inl err) => Some err | _ => None end) t.

Definition driver_errors (t : Trace) : list JsError :=
  omap (fun e => match e with
                 | EvSession _ (Some err) => Some err
                 | EvRun _ _ _ (inl err) => Some err
                 | EvVerifyConnectivity (inl err) => Some err
                 | EvClose (Some err) => Some err
                 | _ => None
                 end) t.

(** The text an operation puts in front of the message of an error caught by
    its [catch] block. *)
Definition error_prefix (op : Operation) : option string :=
  match op with
  | VerifyConnection => None
  | GetAllPapers => Some "Failed to fetch papers: "
  | GetPaperDetails _ => Some "Failed to fetch paper details: "
  | GetRelatedPapers _ => Some "Failed to fetch related papers: "
  end.

(** ** Sample environments *)

Definition simple_int (v : JsValue) : JsError + Z :=
  match v with
  | VNum n => inr n
  | _ => inl (Error "number format error")
  end.

(** A driver that gives the same answers whatever happened before. *)
Definition canned_world (session : option JsError)
    (answer : string -> JsError + QueryResult) (closing : option JsError)
    (now : Z) : World :=
  {| neo4j_int := simple_int;
     driver_session := fun _ _ => session;
     session_run := fun _ _ q _ => answer q;
     driver_verifyConnectivity := fun _ => inr "Neo4j";
     session_close := fun _ => closing;
     record_no_field := fun key => Error ("This record has no field with key " ++ key);
     type_error := Error "Cannot read properties of undefined";
     Date_now := fun _ => now |}.

Definition sample_config : Neo4jConfig :=
  mkNeo4jConfig "bolt://localhost:7687" "neo4j" "ssss8888" "neo4j".

Definition service_unavailable : JsError :=
  mkJsError (Some "ServiceUnavailable") "Connection refused".

Definition no_records (q : string) : JsError + QueryResult := inr (mkQueryResult []).

(** A server that is up and whose database is empty. *)
Definition empty_db_world : World := canned_world None no_records None 1700000000000.

(** A server that refuses every query. *)
Definition failing_query_world : World :=
  canned_world None (fun _ => inl service_unavailable) None 1700000000000.

(** A server that answers queries but fails when the session is closed. *)
Definition failing_close_world : World :=
  canned_world None no_records (Some service_unavailable) 1700000000000.

(** A server that stores a counter and increments it on every query but a
    read query run in READ mode. *)
Definition counting_server (mode : AccessMode) (q : string) (ps : Params) (d : nat) : nat :=
  match mode with
  | READ => if is_read_query q then d else S d
  | WRITE => S d
  end.

(** A node that has a property called [id] of its own, and a result row
    that holds it in every column the service reads. *)
Definition node_with_id_property : JsValue :=
  VNode 7 (<["id" := VStr "paper-7"]> (<["name" := VStr "Innovation"]> ∅)).

Definition row_with_id_property : DbRecord :=
  <["n" := node_with_id_property]>
    (<["related" := node_with_id_property]>
       (<["labels" := VList [VStr "Paper"]]> ∅)).

Definition id_property_world : World :=
  canned_world None (fun _ => inr (mkQueryResult [row_with_id_property])) None
    1700000000000.

(** A driver that cannot open a session. *)
Definition no_session_world : World :=
  canned_world (Some service_unavailable) no_records None 1700000000000.

(** A node without a [name] property, and one with. *)
Definition row_without_name : DbRecord :=
  <["n" := VNode 1 (<["title" := VStr "Untitled"]> ∅)]>
    (<["labels" := VList [VStr "Paper"]]> ∅).

Definition row_named (identity : Z) (name : string) : DbRecord :=
  <["n" := VNode identity (<["name" := VStr name]> ∅)]>
    (<["labels" := VList [VStr "Paper"]]> ∅).

Definition nameless_world : World :=
  canned_world None (fun _ => inr (mkQueryResult [row_without_name])) None
    1700000000000.

Definition two_papers_world : World :=
  canned_world None
    (fun _ => inr (mkQueryResult [row_named 924 "Social Responsibility";
                                  row_named 925 "Innovation"]))
    None 1700000000000.

(** ** The loader's decision, restated *)

(** A fetch is due when nothing was fetched yet ([lastFetchTime] is [null] or
    [0]) or when the last fetch is at least 24 hours (86 400 000 ms) old. *)
Definition fetch_due (lastFetchTime : option Z) (now : Z) : bool :=
  match lastFetchTime with
  | None => true
  | Some t => (t =? 0)%Z || (86400000 <=? now - t)%Z
  end.

(** A render one second after a fetch. *)
Definition fresh_state : StarView.State :=
  StarView.mkState None false ["Innovation"] (Some 1699999999000)
    "Connected to Neo4j. Loading papers...".

(** What one run of the effect appends to the transcript. *)
Definition effect_trace (w : World) (cfg : Neo4jConfig) (st : StarView.State)
    (h : Trace) : Trace :=
  drop (length h) (snd (StarView.run_effect w cfg st h)).

(** The [driver.session] calls of a transcript. *)
Definition session_requests (t : Trace) : list SessionConfig :=
  omap (fun e => match e with EvSession c _ => Some c | _ => None end) t.

(** The [name] property of a record object is a string and not the empty
    one. *)
Definition has_display_name (paper : JsObject) : bool :=
  match paper !! "name" with
  | Some (VStr s) => negb (String.eqb s "")
  | _ => false
  end.

(** [shown records names]: [names] holds, in order, the [name] of every
    record whose [name] property is a non-empty string; a record whose
    [name] is missing, empty or not a string contributes nothing. *)
Inductive shown : list JsObject -> list string -> Prop :=
| shown_nil : shown [] []
| shown_keep (paper : JsObject) (s : string) rest names :
    paper !! "name" = Some (VStr s) -> s <> "" ->
    shown rest names -> shown (paper :: rest) (s :: names)
| shown_drop (paper : JsObject) rest names :
    (forall s, paper !! "name" = Some (VStr s) -> s = "") ->
    shown rest names -> shown (paper :: rest) names.

(** ** The generator's loop invariant *)

(** What the loops of [generateMorePapers] keep true of [paperLabels]. *)
Definition labels_invariant (paperLabels : list string) : Prop :=
  NoDup paperLabels /\ head paperLabels = Some "Paper".

(** What the claim asks of the record generated for the number [i]. *)
Definition generated_ok (i : Z) (p : TempPapers.Paper) : Prop :=
  TempPapers.id p = toString i
  /\ labels_invariant (TempPapers.labels p)
  /\ (2 <= length (TempPapers.labels p) <= 4)%nat.

(** Draws that are all 0, and draws that cycle through 0, 1/7, ..., 6/7. *)
Definition zero_draws (n : nat) : Q := 0.
Definition cycling_draws (n : nat) : Q := Z.of_nat (n mod 7) # 7.

(** ** Further observations and sample environments *)

(** The errors the driver answered inside the [try] block of
    [verifyConnection]: to a query or to [verifyConnectivity]. *)
Definition try_errors (t : Trace) : list JsError :=
  omap (fun e => match e with
                 | EvRun _ _ _ (inl err) => Some err
                 | EvVerifyConnectivity (inl err) => Some err
                 | _ => None
                 end) t.

(** The message [verifyConnection] throws for an error caught by its
    [catch] block, as the three branches of that block choose it. *)
Definition verification_message (error : JsError) : string :=
  if decide (code error = Some "ServiceUnavailable") then
    "Neo4j service is not available. Please check if the database is running and port 7687 is accessible."
  else if decide (code error = Some "SecurityError") then
    "Authentication failed. Please check your credentials."
  else "Connection verification failed: " ++ message error.

(** How a record of [getAllPapers]' query and the object made from it
    relate. *)
Definition paper_matches (record : DbRecord) (paper : JsObject) : Prop :=
  exists ident props labels,
    record !! "n" = Some (VNode ident props)
    /\ record !! "labels" = Some labels
    /\ paper !! "labels" = Some labels
    /\ (forall k v, k <> "labels" -> props !! k = Some v -> paper !! k = Some v)
    /\ paper !! "id" = Some (default (VStr (toString ident)) (props !! "id")).

(** A server whose authentication fails. *)
Definition security_error : JsError :=
  mkJsError (Some "SecurityError") "The client is unauthorized".

Definition unauthorized_world : World :=
  canned_world None (fun _ => inl security_error) None 1700000000000.

(** The [driver.close], [session.close] and [neo4j.driver] calls of a
    transcript of the driver's life. *)
Definition driver_closes (t : Lifecycle.LTrace) : list (option JsError) :=
  omap (fun e => match e with Lifecycle.LDriverClose a => Some a | _ => None end) t.

Definition session_closes (t : Lifecycle.LTrace) : list (option JsError) :=
  omap (fun e => match e with Lifecycle.LSessionClose a => Some a | _ => None end) t.

Definition driver_creations (t : Lifecycle.LTrace) : list string :=
  omap (fun e => match e with Lifecycle.LDriver u _ _ _ => Some u | _ => None end) t.

Definition sessions_opened (t : Lifecycle.LTrace) : list unit :=
  omap (fun e => match e with Lifecycle.LSession None => Some tt | _ => None end) t.

(** What a computation on the driver's life appends to the transcript. *)
Definition emittedL {A} (m : Lifecycle.L A) (h : Lifecycle.LTrace) : Lifecycle.LTrace :=
  drop (length h) (snd (m h)).

Definition thrownL {A} (m : Lifecycle.L A) (h : Lifecycle.LTrace) : option JsError :=
  match fst (m h) with inl e => Some e | inr _ => None end.

(** An environment that answers the same whatever happened before. *)
Definition canned_lworld (driver : JsError + bool) (session : option JsError)
    (answer : string -> JsError + QueryResult)
    (session_closing driver_closing : option JsError) : Lifecycle.LWorld :=
  {| Lifecycle.neo4j_driver := fun _ _ _ _ => driver;
     Lifecycle.l_session := fun _ => session;
     Lifecycle.l_run := fun _ q => answer q;
     Lifecycle.l_session_close := fun _ => session_closing;
     Lifecycle.l_driver_close := fun _ => driver_closing;
     Lifecycle.l_record_no_field :=
       fun key => Error ("This record has no field with key " ++ key);
     Lifecycle.l_type_error := Error "Cannot read properties of undefined" |}.

(** A reachable driver whose server refuses every query. *)
Definition refusing_lworld : Lifecycle.LWorld :=
  canned_lworld (inr true) None (fun _ => inl service_unavailable) None None.

(** A driver whose shutdown fails. *)
Definition stuck_lworld : Lifecycle.LWorld :=
  canned_lworld (inr true) None no_records None (Some service_unavailable).

(** A render long after the last fetch. *)
Definition stale_state : StarView.State :=
  StarView.mkState None false ["Innovation"] (Some 1600000000000)
    "Connected to Neo4j. Loading papers...".

(** A generated record takes its labels from [labels_pool] and its name from
    [activities] and [schools]. *)
Definition from_pools (p : TempPapers.Paper) : Prop :=
  Forall (fun label => label ∈ TempPapers.labels_pool) (TempPapers.labels p)
  /\ exists activity school,
       activity ∈ TempPapers.activities
       /\ school ∈ TempPapers.schools
       /\ TempPapers.name p = (activity ++ " (" ++ school ++ ")")%string.

(** The errors answered to the calls that create, open, close and shut
    down: everything but the queries. *)
Definition lifecycle_errors (t : Lifecycle.LTrace) : list JsError :=
  omap (fun e => match e with
                 | Lifecycle.LDriver _ _ _ (inl err) => Some err
                 | Lifecycle.LSession (Some err) => Some err
                 | Lifecycle.LSessionClose (Some err) => Some err
                 | Lifecycle.LDriverClose (Some err) => Some err
                 | _ => None
                 end) t.

(** The number of calls that completed among the answers to close calls. *)
Definition completed (answers : list (option JsError)) : nat :=
  length (omap (fun a => match a with None => Some tt | Some _ => None end) answers).

(** The exit code that errors force on the test script. *)
Definition forced_exit (errors : list JsError) : option Z :=
  match errors with
  | [] => None
  | _ :: _ => Some 1
  end.

(** A driver factory that throws. *)
Definition no_driver_lworld : Lifecycle.LWorld :=
  canned_lworld (inl service_unavailable) None no_records None None.

Definition bad_uri_config : Neo4jConfig :=
  mkNeo4jConfig "http://localhost:7474" "neo4j" "ssss8888" "neo4j".

(** ** Lemmas on the monad and on [mapM] *)

Section MapM.
Context {A B : Type}.

Lemma mapM_silent (f : A -> M B) (l : list A) :
  (forall x h, snd (f x h) = h) -> forall h, snd (mapM f l h) = h.
Proof.
  intros Hf. induction l as [|x xs IH]; intros h; simpl; [reflexivity|].
  unfold bind. specialize (Hf x h). destruct (f x h) as [[e|y] h1]; simpl in *; subst.
  - reflexivity.
  - specialize (IH h). destruct (mapM f xs h) as [[e|ys] h2]; simpl in *; subst; reflexivity.
Qed.

Lemma mapM_consoles (f : A -> M B) (l : list A) :
  (forall x h, exists evs, snd (f x h) = h ++ evs /\ forallb is_console evs = true) ->
  forall h, exists evs, snd (mapM f l h) = h ++ evs /\ forallb is_console evs = true.
Proof.
  intros Hf. induction l as [|x xs IH]; intros h; simpl.
  - exists []. rewrite app_nil_r. auto.
  - unfold bind. destruct (Hf x h) as (ev1 & E1 & C1).
    destruct (f x h) as [[e|y] h1]; simpl in *; subst.
    + exists ev1. auto.
    + destruct (IH (h ++ ev1)) as (ev2 & E2 & C2).
      destruct (mapM f xs (h ++ ev1)) as [[e|ys] h2]; simpl in *; subst;
        exists (ev1 ++ ev2); rewrite forallb_app, C1, C2, app_assoc; auto.
Qed.

(** [array.map] keeps the length when the callback never throws. *)
Lemma mapM_length (f : A -> M B) (l : list A) h ys h' :
  mapM f l h = (inr ys, h') -> length ys = length l.
Proof.
  revert h ys h'. induction l as [|x xs IH]; intros h ys h'; simpl.
  - unfold ret. intros [= <- <-]. reflexivity.
  - unfold bind. destruct (f x h) as [[e|y] h1]; [discriminate|].
    destruct (mapM f xs h1) as [[e|zs] h2] eqn:E; [discriminate|].
    unfold ret. intros [= <- <-]. simpl. f_equal. eapply IH, E.
Qed.
End MapM.

Lemma consoles_run_calls evs : forallb is_console evs = true -> run_calls evs = [].
Proof.
  induction evs as [|e evs IH]; simpl; [reflexivity|].
  intros [He Hr]%andb_prop. destruct e; try discriminate. apply IH, Hr.
Qed.

Lemma consoles_opened evs : forallb is_console evs = true -> opened evs = [].
Proof.
  induction evs as [|e evs IH]; simpl; [reflexivity|].
  intros [He Hr]%andb_prop. destruct e; try discriminate. apply IH, Hr.
Qed.

Lemma consoles_closes evs : forallb is_console evs = true -> closes evs = [].
Proof.
  induction evs as [|e evs IH]; simpl; [reflexivity|].
  intros [He Hr]%andb_prop. destruct e; try discriminate. apply IH, Hr.
Qed.

Lemma run_calls_app t1 t2 : run_calls (t1 ++ t2) = run_calls t1 ++ run_calls t2.
Proof. apply omap_app. Qed.

Lemma opened_app t1 t2 : opened (t1 ++ t2) = opened t1 ++ opened t2.
Proof. apply omap_app. Qed.

Lemma closes_app t1 t2 : closes (t1 ++ t2) = closes t1 ++ closes t2.
Proof. apply omap_app. Qed.

Lemma paper_of_record_consoles w record h :
  exists evs, snd (Neo4jService.paper_of_record w record h) = h ++ evs
              /\ forallb is_console evs = true.
Proof.
  unfold Neo4jService.paper_of_record, bind, lift, console_log, emit, ret.
  repeat case_match; simplify_eq/=;
    solve [ exists []; rewrite app_nil_r; auto | eexists [_]; auto ].
Qed.

Lemma related_of_record_silent w record h :
  snd (Neo4jService.related_of_record w record h) = h.
Proof.
  unfold Neo4jService.related_of_record, bind, lift, ret.
  repeat case_match; simplify_eq/=; reflexivity.
Qed.

(** Case analysis on the answers of the environment along one operation. *)
Ltac service_unfold :=
  unfold perform, emitted, thrown,
    Neo4jService.verifyConnection, Neo4jService.getAllPapers,
    Neo4jService.getPaperDetails, Neo4jService.getRelatedPapers,
    Neo4jService.getSession, try_catch_finally, try_catch, bind,
    Neo4jService.driver_session_call, Neo4jService.verifyConnectivity,
    console_log, console_error, emit, lift, Neo4jService.run,
    Neo4jService.close, throw, ret, service_session;
  simpl.

Ltac mapM_traces :=
  repeat match goal with
  | H : mapM (Neo4jService.paper_of_record ?w) ?l ?h = (_, ?h1) |- _ =>
      let evs := fresh "evs" in
      let E := fresh "E" in
      let Hc := fresh "Hconsole" in
      destruct (mapM_consoles (Neo4jService.paper_of_record w) l
                  (paper_of_record_consoles w) h) as (evs & E & Hc);
      rewrite H in E; simpl in E; subst h1; clear H
  | H : mapM (Neo4jService.related_of_record ?w) ?l ?h = (_, ?h1) |- _ =>
      let E := fresh "E" in
      pose proof (mapM_silent (Neo4jService.related_of_record w) l
                    (related_of_record_silent w) h) as E;
      rewrite H in E; simpl in E; subst h1; clear H
  end.

Ltac service_cases := repeat case_match; simplify_eq/=; mapM_traces.

Ltac trace_norm := rewrite <- ?app_assoc, ?drop_app_length.

(** The same case analysis on a goal that mentions the run [m h] of one
    computation several times: the run is named first, so that the answers
    of the environment are split once. *)
Ltac run_cases :=
  unfold emitted, thrown;
  match goal with
  | |- context [snd (?m ?h)] =>
      let res := fresh "res" in
      let t := fresh "t" in
      let E := fresh "Erun" in
      destruct (m h) as [res t] eqn:E; revert E
  end;
  service_unfold; repeat case_match; intros ?; simplify_eq; mapM_traces.

Ltac observe :=
  rewrite ?run_calls_app, ?opened_app, ?closes_app;
  repeat match goal with
  | H : forallb is_console ?evs = true |- _ =>
      rewrite ?(consoles_run_calls evs H), ?(consoles_opened evs H),
        ?(consoles_closes evs H); clear H
  end;
  simpl.

Lemma consoles_read_only evs :
  forallb is_console evs = true -> forallb read_only_event evs = true.
Proof.
  induction evs as [|e evs IH]; simpl; [reflexivity|].
  intros [He Hr]%andb_prop. destruct e; try discriminate. apply IH, Hr.
Qed.

Lemma consoles_after_failed_run evs t :
  forallb is_console evs = true -> after_failed_run (evs ++ t) = after_failed_run t.
Proof.
  induction evs as [|e evs IH]; simpl; [reflexivity|].
  intros [He Hr]%andb_prop. destruct e; try discriminate. apply IH, Hr.
Qed.

Lemma replay_app {Db} (step : AccessMode -> string -> Params -> Db -> Db) t1 t2 d :
  replay step (t1 ++ t2) d = replay step t2 (replay step t1 d).
Proof.
  revert d. induction t1 as [|e t1 IH]; intros d; simpl; [reflexivity|].
  destruct e; apply IH.
Qed.

Lemma replay_read_only {Db} (step : AccessMode -> string -> Params -> Db -> Db) t d :
  (forall q ps d', is_read_query q = true -> step READ q ps d' = d') ->
  forallb read_only_event t = true -> replay step t d = d.
Proof.
  intros Hread. revert d. induction t as [|e t IH]; intros d; simpl; [reflexivity|].
  intros [He Ht]%andb_prop. destruct e; simpl in He; try (apply IH, Ht).
  apply andb_prop in He as [He _]. apply andb_prop in He as [Hmode Hq].
  unfold is_READ in Hmode.
  destruct (defaultAccessMode cfg); [|discriminate].
  rewrite Hread by exact Hq. apply IH, Ht.
Qed.

(** The classifier is not blind to case nor to procedures. *)
Lemma classifier_rejects_writes :
  is_read_query "MATCH (n) detach delete n" = false
  /\ is_read_query "MATCH (n) SET n.name = 'x' RETURN n" = false
  /\ is_read_query "CALL db.createLabel('Hacked')" = false
  /\ is_read_query "create (n:Paper) return n" = false.
Proof. vm_compute. auto. Qed.

(** ** The service: queries, retries, sessions *)

(** C2: [getPaperDetails] and [getRelatedPapers] call [session.run] at most
    once, with a query text that is a constant of the program; the input
    [paperId] reaches the driver only as the value bound to [$paperId]. *)
Theorem queries_are_parameterized (w : World) (cfg : Neo4jConfig)
    (paperId : JsValue) (h : Trace) :
  run_calls (emitted (Neo4jService.getPaperDetails w cfg paperId) h) =
    match driver_session w h (service_session cfg), neo4j_int w paperId with
    | None, inr i => [(Neo4jService.PAPER_DETAILS, [("paperId", i)])]
    | _, _ => []
    end
  /\
  run_calls (emitted (Neo4jService.getRelatedPapers w cfg paperId) h) =
    match driver_session w h (service_session cfg), neo4j_int w paperId with
    | None, inr i => [(Neo4jService.RELATED_PAPERS, [("paperId", i)])]
    | _, _ => []
    end.
Proof.
  split; service_unfold; service_cases; trace_norm; observe; reflexivity.
Qed.

(** C4: no operation issues a query twice, nothing is run after a query that
    failed, and an operation one of whose queries failed ends with an
    exception. *)
Theorem no_retry (w : World) (cfg : Neo4jConfig) (op : Operation) (h : Trace) :
  NoDup (queries (emitted (perform w cfg op) h))
  /\
  match after_failed_run (emitted (perform w cfg op) h) with
  | Some rest => run_calls rest = [] /\ is_Some (thrown (perform w cfg op) h)
  | None => True
  end.
Proof.
  split.
  - unfold queries.
    destruct op; run_cases; trace_norm; observe;
      apply (bool_decide_unpack _); vm_compute; reflexivity.
  - destruct op; run_cases; auto.
    all: match goal with
         | H : after_failed_run _ = Some _ |- _ =>
             rewrite <- ?app_assoc, ?drop_app_length in H; simpl in H;
             repeat match goal with
             | Hc : forallb is_console ?evs = true |- _ =>
                 rewrite (consoles_after_failed_run evs _ Hc) in H; clear Hc
             end;
             simpl in H; simplify_eq
         end.
    all: split; [reflexivity | eexists; reflexivity].
Qed.

(** C8: every operation makes as many [session.close] calls as it opened
    sessions, it opens at most one, and when it opened one the close is the
    last thing it does, whether it returns or throws. *)
Theorem session_closed_once (w : World) (cfg : Neo4jConfig) (op : Operation)
    (h : Trace) :
  length (closes (emitted (perform w cfg op) h))
    = length (opened (emitted (perform w cfg op) h))
  /\ (length (opened (emitted (perform w cfg op) h)) <= 1)%nat
  /\ closed_last (emitted (perform w cfg op) h) = true.
Proof.
  destruct op; run_cases; trace_norm; unfold closed_last.
  all: split; [observe; reflexivity | split; [observe; lia |]].
  all: try (rewrite !app_assoc, last_snoc; rewrite <- ?app_assoc).
  all: observe; reflexivity.
Qed.

Lemma omap_consoles {X} (f : Event -> option X) evs :
  (forall lvl label, f (EvConsole lvl label) = None) ->
  forallb is_console evs = true -> omap f evs = [].
Proof.
  intros Hf. induction evs as [|e evs IH]; simpl; [reflexivity|].
  intros [He Hr]%andb_prop. destruct e; try discriminate. rewrite Hf. apply IH, Hr.
Qed.

Ltac observe_errors :=
  unfold query_errors, driver_errors, closes;
  rewrite ?omap_app;
  repeat match goal with
  | H : forallb is_console ?evs = true |- context [omap ?f ?evs] =>
      rewrite (omap_consoles f evs (fun _ _ => eq_refl) H)
  end;
  simpl.

(** C5: every session is opened in READ mode; every text handed to
    [session.run] is a read query (no writing clause or command in whatever
    case, no procedure call but [db.labels] and [dbms.components]) and is
    one of the six texts of the service; hence a server that changes nothing
    when a read query is run in a READ-mode session is left in the state it
    was in. *)
Theorem service_reads_only (w : World) (cfg : Neo4jConfig) (op : Operation)
    (h : Trace) (Db : Type) (step : AccessMode -> string -> Params -> Db -> Db)
    (d : Db) :
  (forall q ps d', is_read_query q = true -> step READ q ps d' = d') ->
  forallb read_only_event (emitted (perform w cfg op) h) = true
  /\ forallb is_read_query read_queries = true
  /\ replay step (emitted (perform w cfg op) h) d = d.
Proof.
  intros Hread.
  assert (Hev : forallb read_only_event (emitted (perform w cfg op) h) = true).
  { clear. destruct op; run_cases; trace_norm;
      rewrite ?forallb_app;
      repeat match goal with
      | H : forallb is_console ?evs = true |- _ =>
          rewrite (consoles_read_only evs H); clear H
      end; vm_compute; reflexivity. }
  split; [exact Hev | split; [vm_compute; reflexivity |]].
  apply replay_read_only; assumption.
Qed.

Lemma service_reads_only_witness :
  (forall q ps d', is_read_query q = true -> counting_server READ q ps d' = d')
  /\ replay counting_server
       (emitted (perform empty_db_world sample_config GetAllPapers) []) 7%nat = 7%nat.
Proof.
  assert (H : forall q ps d', is_read_query q = true ->
                counting_server READ q ps d' = d').
  { intros q ps d' Hq. unfold counting_server. rewrite Hq. reflexivity. }
  split; [exact H|].
  apply (service_reads_only empty_db_world sample_config GetAllPapers [] nat
           counting_server 7%nat H).
Defined.

(** ** The service: error wrapping *)

(** C3 as stated fails: an error of [driver.session] is rethrown by
    [getSession] and leaves [getAllPapers] unchanged, without the prefix. *)
Lemma not_every_driver_error_is_wrapped :
  ~ (forall (w : World) (cfg : Neo4jConfig) (h : Trace) (e : JsError),
       In e (driver_errors (emitted (perform w cfg GetAllPapers) h)) ->
       thrown (perform w cfg GetAllPapers) h
         = Some (Error ("Failed to fetch papers: " ++ message e))).
Proof.
  intros H.
  specialize (H no_session_world sample_config [] service_unavailable).
  vm_compute in H. specialize (H (or_introl eq_refl)). discriminate H.
Qed.

(** C3, amended: an error answered to a query is rethrown with the
    operation's prefix when the session then closes; an error of
    [driver.session] is rethrown as it is; an error of [session.close] is
    what the operation throws; and whenever the driver answered any call with
    an error the operation ends with an exception. *)
Theorem errors_wrapped_inside_try (w : World) (cfg : Neo4jConfig)
    (op : Operation) (pre : string) (h : Trace) (e : JsError) :
  error_prefix op = Some pre ->
  (In e (query_errors (emitted (perform w cfg op) h)) ->
   closes (emitted (perform w cfg op) h) = [None] ->
   thrown (perform w cfg op) h = Some (Error (pre ++ message e)))
  /\ (driver_session w h (service_session cfg) = Some e ->
      thrown (perform w cfg op) h = Some e)
  /\ (In (Some e) (closes (emitted (perform w cfg op) h)) ->
      thrown (perform w cfg op) h = Some e)
  /\ (driver_errors (emitted (perform w cfg op) h) <> [] ->
      is_Some (thrown (perform w cfg op) h)).
Proof.
  intros Hpre.
  destruct op; simpl in Hpre; simplify_eq.
  all: run_cases; trace_norm; observe_errors.
  all: repeat split; try congruence; try (eexists; reflexivity).
  all: simpl; intros; simplify_eq/=; try reflexivity; try contradiction.
  all: repeat match goal with H : _ \/ _ |- _ => destruct H end;
       simplify_eq/=; try reflexivity; try contradiction.
Qed.

Lemma errors_wrapped_inside_try_witness :
  thrown (perform failing_query_world sample_config GetAllPapers) []
    = Some (Error ("Failed to fetch papers: " ++ "Connection refused"))
  /\ thrown (perform no_session_world sample_config (GetPaperDetails (VNum 7))) []
    = Some service_unavailable
  /\ thrown (perform failing_close_world sample_config (GetRelatedPapers (VNum 7))) []
    = Some service_unavailable
  /\ is_Some (thrown (perform failing_close_world sample_config GetAllPapers) []).
Proof.
  split; [|split; [|split]].
  - apply (proj1 (errors_wrapped_inside_try failing_query_world sample_config
             GetAllPapers "Failed to fetch papers: " [] service_unavailable eq_refl)).
    + vm_compute. left. reflexivity.
    + reflexivity.
  - apply (proj1 (proj2 (errors_wrapped_inside_try no_session_world sample_config
             (GetPaperDetails (VNum 7)) "Failed to fetch paper details: " []
             service_unavailable eq_refl))).
    reflexivity.
  - apply (proj1 (proj2 (proj2 (errors_wrapped_inside_try failing_close_world
             sample_config (GetRelatedPapers (VNum 7))
             "Failed to fetch related papers: " [] service_unavailable eq_refl)))).
    vm_compute. left. reflexivity.
  - apply (proj2 (proj2 (proj2 (errors_wrapped_inside_try failing_close_world
             sample_config GetAllPapers "Failed to fetch papers: " []
             service_unavailable eq_refl)))).
    vm_compute. discriminate.
Defined.

(** ** The service: what the lookups return *)

Section Lookups.
Variable w : World.
Variable cfg : Neo4jConfig.
Variable paperId : JsValue.
Variable i : Z.
Hypothesis int_ok : neo4j_int w paperId = inr i.
Hypothesis session_ok : forall h c, driver_session w h c = None.
Hypothesis close_ok : forall h, session_close w h = None.

(** No row for the id: [null]. *)
Lemma getPaperDetails_no_row h :
  (forall h', session_run w h' (service_session cfg) Neo4jService.PAPER_DETAILS
                [("paperId", i)] = inr (mkQueryResult [])) ->
  fst (Neo4jService.getPaperDetails w cfg paperId h) = inr None.
Proof.
  intros Hrun. service_unfold.
  rewrite session_ok, int_ok, Hrun; simpl. rewrite close_ok. reflexivity.
Qed.

(** A row with a node: the node's properties, and the identity under [id]
    unless the node has an [id] property, which then stays. *)
Lemma getPaperDetails_row h identity props row rows :
  row !! "n" = Some (VNode identity props) ->
  (forall h', session_run w h' (service_session cfg) Neo4jService.PAPER_DETAILS
                [("paperId", i)] = inr (mkQueryResult (row :: rows))) ->
  exists paper,
    fst (Neo4jService.getPaperDetails w cfg paperId h) = inr (Some paper)
    /\ (forall k v, props !! k = Some v -> paper !! k = Some v)
    /\ paper !! "id" = Some (default (VStr (toString identity)) (props !! "id")).
Proof.
  intros Hn Hrun. service_unfold.
  rewrite session_ok, int_ok, Hrun; simpl.
  unfold Neo4jService.record_get. rewrite Hn; simpl. rewrite close_ok.
  eexists; split; [reflexivity|]. unfold Neo4jService.node_object, Neo4jService.spread; simpl.
  split.
  - intros k v Hk. apply lookup_union_Some_l, Hk.
  - rewrite lookup_union. destruct (props !! "id"); simpl.
    + rewrite lookup_singleton_eq. reflexivity.
    + rewrite lookup_singleton_eq. reflexivity.
Qed.

(** [getRelatedPapers] returns one object per row of the answer. *)
Lemma getRelatedPapers_length h result papers :
  (forall h', session_run w h' (service_session cfg) Neo4jService.RELATED_PAPERS
                [("paperId", i)] = inr result) ->
  fst (Neo4jService.getRelatedPapers w cfg paperId h) = inr papers ->
  length papers = length (records result).
Proof.
  intros Hrun. service_unfold.
  rewrite session_ok, int_ok, Hrun; simpl.
  destruct (mapM _ _ _) as [[e|ps] h1] eqn:E; simpl.
  - rewrite close_ok. discriminate.
  - rewrite close_ok. simpl. intros [= <-]. eapply mapM_length, E.
Qed.

End Lookups.

(** C9 at a node that has an [id] property: the object returned by
    [getPaperDetails] carries the property under [id], not the identity. *)
Theorem getPaperDetails_id_overridden :
  match fst (Neo4jService.getPaperDetails id_property_world sample_config (VNum 7) []) with
  | inr (Some paper) =>
      paper !! "id" = Some (VStr "paper-7") /\ toString 7 = "7"
  | _ => False
  end.
Proof. vm_compute. split; reflexivity. Qed.

(** C10 at a node that has an [id] property: the object returned by
    [getRelatedPapers] carries the property under [id], not the identity. *)
Theorem getRelatedPapers_id_overridden :
  match fst (Neo4jService.getRelatedPapers id_property_world sample_config (VNum 3) []) with
  | inr [related] =>
      related !! "id" = Some (VStr "paper-7") /\ toString 7 = "7"
  | _ => False
  end.
Proof. vm_compute. split; reflexivity. Qed.

(** ** StarView: the fetch decision *)

Lemma hours_elapsed_ge_24_spec now t :
  StarView.hours_elapsed_ge_24 now t = (86400000 <=? now - t)%Z.
Proof.
  unfold StarView.hours_elapsed_ge_24, Qle_bool. simpl.
  destruct (Z.leb_spec 86400000 (now - t)); [apply Z.leb_le | apply Z.leb_gt]; lia.
Qed.

Lemma verifyConnection_asks_session w cfg h :
  exists a rest,
    snd (Neo4jService.verifyConnection w cfg h) = h ++ EvSession (service_session cfg) a :: rest.
Proof.
  service_unfold; service_cases; rewrite <- ?app_assoc; simpl; eauto.
Qed.

Lemma getAllPapers_extends w cfg h :
  exists t, snd (Neo4jService.getAllPapers w cfg h) = h ++ t.
Proof.
  service_unfold; service_cases; rewrite <- ?app_assoc; simpl; eauto.
Qed.

Ltac component_unfold :=
  unfold StarView.run_effect, StarView.fetchData, StarView.try_catchC,
    StarView.bindC, StarView.await, StarView.set, StarView.retC,
    StarView.throwC, StarView.Date_now_call, console_log, console_error, emit.

(** When a fetch is due the first thing the effect does after the decision
    is to ask the driver for a session. *)
Lemma fetchData_when_due w cfg st h h0 :
  StarView.shouldFetchNewData w (StarView.lastFetchTime st) h = (inr true, h0) ->
  exists a rest,
    snd (StarView.run_effect w cfg st h)
      = h0 ++ EvSession (service_session cfg) a :: rest.
Proof.
  intros Hdue. component_unfold. rewrite Hdue. simpl.
  destruct (verifyConnection_asks_session w cfg h0) as (a & rest & E).
  destruct (Neo4jService.verifyConnection w cfg h0) as [[e|[|]] h1];
    simpl in *; subst h1.
  - rewrite <- app_assoc. simpl. eauto.
  - destruct (getAllPapers_extends w cfg (h0 ++ EvSession (service_session cfg) a :: rest))
      as (t & Et).
    destruct (Neo4jService.getAllPapers w cfg _) as [[e|data] h2]; simpl in *; subst h2.
    + rewrite <- !app_assoc. simpl. eauto.
    + destruct (length (StarView.names_of data) =? 0)%nat; simpl;
        rewrite <- !app_assoc; simpl; eauto.
  - rewrite <- app_assoc. simpl. eauto.
Qed.

(** The state and transcript after a run of the effect that fetched. *)
Lemma fetchData_success w cfg st h h0 h1 h2 data :
  StarView.shouldFetchNewData w (StarView.lastFetchTime st) h = (inr true, h0) ->
  Neo4jService.verifyConnection w cfg h0 = (inr true, h1) ->
  Neo4jService.getAllPapers w cfg h1 = (inr data, h2) ->
  StarView.run_effect w cfg st h =
    (let names := StarView.names_of data in
     let st1 :=
       StarView.setLoading false
         (StarView.setLastFetchTime (Date_now w h2)
            (StarView.setPapers names
               (StarView.setConnectionStatus "Connected to Neo4j. Loading papers..."
                  (StarView.setConnectionStatus "Connecting to Neo4j..." st)))) in
     if (length names =? 0)%nat
     then StarView.setError "No papers found in the database" st1
     else st1,
     h2 ++ [EvDateNow (Date_now w h2)]).
Proof.
  intros Hdue Hconn Hall. component_unfold.
  rewrite Hdue; simpl. rewrite Hconn; simpl. rewrite Hall; simpl.
  destruct (length (StarView.names_of data) =? 0)%nat; reflexivity.
Qed.

(** C1 as stated fails: one second after a fetch [shouldFetchNewData]
    answers [false]. *)
Lemma fetch_is_skipped_when_fresh :
  ~ (forall (w : World) (st : StarView.State) (h : Trace),
       fst (StarView.shouldFetchNewData w (StarView.lastFetchTime st) h) = inr true).
Proof.
  intros H. specialize (H empty_db_world fresh_state []).
  vm_compute in H. discriminate H.
Qed.

(** C1, amended: [shouldFetchNewData] answers [true] exactly when no fetch
    time is stored or the stored one is at least 24 hours old; when it
    answers [false] the effect only logs and clears [loading], and when it
    answers [true] the effect asks the driver for a session. *)
Theorem fetch_decision (w : World) (cfg : Neo4jConfig) (st : StarView.State)
    (h : Trace) :
  fst (StarView.shouldFetchNewData w (StarView.lastFetchTime st) h)
    = inr (fetch_due (StarView.lastFetchTime st) (Date_now w h))
  /\ (fetch_due (StarView.lastFetchTime st) (Date_now w h) = false ->
      StarView.run_effect w cfg st h
        = (StarView.setLoading false st,
           h ++ [EvDateNow (Date_now w h); EvConsole LOG "Using cached data from:"]))
  /\ (fetch_due (StarView.lastFetchTime st) (Date_now w h) = true ->
      session_requests (effect_trace w cfg st h) <> []).
Proof.
  split; [|split].
  - unfold StarView.shouldFetchNewData, fetch_due, bind, ret, StarView.Date_now_call.
    destruct (StarView.lastFetchTime st) as [t|]; [|reflexivity].
    destruct (t =? 0)%Z; [reflexivity|]. simpl.
    rewrite hours_elapsed_ge_24_spec. reflexivity.
  - unfold fetch_due. component_unfold.
    unfold StarView.shouldFetchNewData, bind, ret, StarView.Date_now_call.
    destruct (StarView.lastFetchTime st) as [t|]; [|discriminate].
    destruct (t =? 0)%Z; [discriminate|]. simpl.
    rewrite hours_elapsed_ge_24_spec. intros ->. simpl.
    rewrite <- app_assoc. reflexivity.
  - intros Hdue.
    assert (Hs : exists h0 t0, StarView.shouldFetchNewData w (StarView.lastFetchTime st) h
                            = (inr true, h0) /\ h0 = h ++ t0
                            /\ session_requests t0 = []).
    { revert Hdue.
      unfold fetch_due, StarView.shouldFetchNewData, bind, ret, StarView.Date_now_call.
      destruct (StarView.lastFetchTime st) as [t|].
      - destruct (t =? 0)%Z; simpl.
        + intros _. exists h, []. rewrite app_nil_r. auto.
        + rewrite hours_elapsed_ge_24_spec. intros ->.
          exists (h ++ [EvDateNow (Date_now w h)]), [EvDateNow (Date_now w h)]. auto.
      - intros _. exists h, []. rewrite app_nil_r. auto. }
    destruct Hs as (h0 & t0 & Hs & -> & Ht0).
    destruct (fetchData_when_due w cfg st h _ Hs) as (a & rest & E).
    unfold effect_trace. rewrite E, <- app_assoc, drop_app_length.
    unfold session_requests in *. rewrite omap_app, Ht0. simpl. discriminate.
Qed.

Lemma fetch_decision_witness :
  StarView.run_effect empty_db_world sample_config fresh_state []
    = (StarView.setLoading false fresh_state,
       [EvDateNow 1700000000000; EvConsole LOG "Using cached data from:"])
  /\ session_requests (effect_trace empty_db_world sample_config StarView.initial [])
       <> [].
Proof.
  split.
  - apply (proj1 (proj2 (fetch_decision empty_db_world sample_config fresh_state []))).
    reflexivity.
  - apply (proj2 (proj2 (fetch_decision empty_db_world sample_config StarView.initial []))).
    reflexivity.
Defined.

(** ** StarView: from records to nodes *)

Lemma names_of_shown (neo4jData : list JsObject) :
  shown neo4jData (StarView.names_of neo4jData).
Proof.
  unfold StarView.names_of.
  induction neo4jData as [|paper rest IH]; simpl; [constructor|].
  change (list_omap _ _ ?f ?l) with (omap f l).
  unfold StarView.paper_name at 1, StarView.string_name at 1.
  destruct (paper !! "name") as [[| | |s| |]|] eqn:E;
    try (apply shown_drop; [intros s' Hs'; congruence | exact IH]).
  destruct (String.eqb_spec s "") as [->|Hne].
  - apply shown_drop; [intros s' Hs'; congruence | exact IH].
  - apply shown_keep; assumption.
Qed.

Lemma shown_length (neo4jData : list JsObject) (names : list string) :
  shown neo4jData names ->
  length names = length (List.filter has_display_name neo4jData).
Proof.
  induction 1 as [|paper s rest names E Hne _ IH|paper rest names Hdrop _ IH]; simpl.
  - reflexivity.
  - unfold has_display_name at 1. rewrite E.
    destruct (String.eqb_spec s ""); [contradiction|]. simpl. f_equal. exact IH.
  - unfold has_display_name at 1.
    destruct (paper !! "name") as [[| | |s| |]|] eqn:E; try exact IH.
    rewrite (Hdrop s eq_refl). simpl. exact IH.
Qed.

Lemma names_of_length (neo4jData : list JsObject) :
  length (StarView.names_of neo4jData) = length (List.filter has_display_name neo4jData).
Proof. apply shown_length, names_of_shown. Qed.

Lemma names_of_length_le (neo4jData : list JsObject) :
  (length (StarView.names_of neo4jData) <= length neo4jData)%nat.
Proof.
  unfold StarView.names_of.
  induction neo4jData as [|paper rest IH]; simpl; [lia|].
  change (list_omap _ _ ?f ?l) with (omap f l).
  destruct (StarView.string_name (StarView.paper_name paper)); simpl; lia.
Qed.

Lemma filter_all_length {A} (f : A -> bool) (l : list A) :
  forallb f l = true -> length (List.filter f l) = length l.
Proof.
  induction l as [|x l IH]; simpl; [reflexivity|].
  intros [Hx Hl]%andb_prop. rewrite Hx. simpl. f_equal. apply IH, Hl.
Qed.

Lemma names_of_all_named (neo4jData : list JsObject) :
  forallb has_display_name neo4jData = true ->
  length (StarView.names_of neo4jData) = length neo4jData.
Proof.
  intros Hall. rewrite names_of_length. apply filter_all_length, Hall.
Qed.


(** C6 as stated fails: a record whose node has no [name] is returned by
    [getAllPapers] and gets no node in the scene. *)
Lemma record_without_name_is_dropped :
  ~ (forall (w : World) (cfg : Neo4jConfig) (st : StarView.State)
            (h h0 h1 h2 : Trace) (neo4jData : list JsObject),
       StarView.shouldFetchNewData w (StarView.lastFetchTime st) h = (inr true, h0) ->
       Neo4jService.verifyConnection w cfg h0 = (inr true, h1) ->
       Neo4jService.getAllPapers w cfg h1 = (inr neo4jData, h2) ->
       length (StarView.StarScene (StarView.papers (fst (StarView.run_effect w cfg st h))))
         = length neo4jData).
Proof.
  intros H.
  pose (h1 := snd (Neo4jService.verifyConnection nameless_world sample_config [])).
  pose (r := Neo4jService.getAllPapers nameless_world sample_config h1).
  specialize (H nameless_world sample_config StarView.initial [] [] h1 (snd r)
                [<["labels" := VList [VStr "Paper"]]>
                   (<["title" := VStr "Untitled"]> ∅ ∪ {["id" := VStr "1"]})]).
  assert (E : length (StarView.StarScene
                (StarView.papers
                   (fst (StarView.run_effect nameless_world sample_config
                           StarView.initial [])))) = 0%nat)
    by (vm_compute; reflexivity).
  rewrite E in H. simpl in H.
  assert (0 = 1)%nat as Habs; [|discriminate Habs].
  apply H; vm_compute; reflexivity.
Qed.

(** C6, amended: after a run of the effect that fetched, the displayed list
    holds, in order, the names of the records whose [name] is a non-empty
    string, and nothing for a record whose [name] is missing, empty or not a
    string ([shown]); the scene has one [PaperNode] per entry of that list,
    hence one per such record and never more than there are records, and
    one per record when every record has such a name. *)
Theorem papers_are_named_records (w : World) (cfg : Neo4jConfig)
    (st : StarView.State) (h h0 h1 h2 : Trace) (neo4jData : list JsObject) :
  StarView.shouldFetchNewData w (StarView.lastFetchTime st) h = (inr true, h0) ->
  Neo4jService.verifyConnection w cfg h0 = (inr true, h1) ->
  Neo4jService.getAllPapers w cfg h1 = (inr neo4jData, h2) ->
  StarView.papers (fst (StarView.run_effect w cfg st h)) = StarView.names_of neo4jData
  /\ map StarView.name (StarView.StarScene (StarView.names_of neo4jData))
     = StarView.names_of neo4jData
  /\ length (StarView.StarScene (StarView.names_of neo4jData))
     = length (List.filter has_display_name neo4jData)
  /\ (length (StarView.StarScene (StarView.names_of neo4jData)) <= length neo4jData)%nat
  /\ (forallb has_display_name neo4jData = true ->
      length (StarView.StarScene (StarView.names_of neo4jData)) = length neo4jData)
  /\ shown neo4jData (StarView.papers (fst (StarView.run_effect w cfg st h))).
Proof.
  intros Hdue Hconn Hall.
  rewrite (fetchData_success w cfg st h h0 h1 h2 neo4jData Hdue Hconn Hall).
  split; [|split; [|split; [|split; [|split]]]].
  - simpl. destruct (length (StarView.names_of neo4jData) =? 0)%nat; reflexivity.
  - unfold StarView.StarScene. generalize (StarView.names_of neo4jData) as names.
    intros names. apply list_eq. intros i.
    rewrite list_lookup_fmap, list_lookup_imap.
    destruct (names !! i); reflexivity.
  - unfold StarView.StarScene. rewrite length_imap. apply names_of_length.
  - unfold StarView.StarScene. rewrite length_imap. apply names_of_length_le.
  - intros Hall_named. unfold StarView.StarScene. rewrite length_imap.
    apply names_of_all_named, Hall_named.
  - cbv zeta. cbn [fst].
    replace (StarView.papers _) with (StarView.names_of neo4jData);
      [apply names_of_shown|].
    destruct (length (StarView.names_of neo4jData) =? 0)%nat; reflexivity.
Qed.

Lemma papers_are_named_records_witness :
  StarView.papers
    (fst (StarView.run_effect two_papers_world sample_config StarView.initial []))
  = ["Social Responsibility"; "Innovation"].
Proof.
  pose (h1 := snd (Neo4jService.verifyConnection two_papers_world sample_config [])).
  pose (r := Neo4jService.getAllPapers two_papers_world sample_config h1).
  pose (neo4jData := match fst r with inr d => d | inl _ => [] end).
  assert (Hdue : StarView.shouldFetchNewData two_papers_world
                   (StarView.lastFetchTime StarView.initial) [] = (inr true, []))
    by reflexivity.
  assert (Hconn : Neo4jService.verifyConnection two_papers_world sample_config []
                  = (inr true, h1)) by (vm_compute; reflexivity).
  assert (Hall : Neo4jService.getAllPapers two_papers_world sample_config h1
                 = (inr neo4jData, snd r)) by (vm_compute; reflexivity).
  exact (proj1 (papers_are_named_records two_papers_world sample_config
                  StarView.initial [] [] h1 (snd r) neo4jData Hdue Hconn Hall)).
Defined.

(** ** The fallback dataset *)

Section Fallback.
Import TempPapers.

Lemma floor_of_draw (r : Q) (k : Z) :
  (0 <= r)%Q -> (r < 1)%Q -> (0 < k)%Z ->
  (0 <= Math_floor (r * inject_Z k) < k)%Z.
Proof.
  intros H0 H1 Hk. unfold Math_floor.
  assert (Hk' : (0 < inject_Z k)%Q) by (rewrite (Zlt_Qlt 0 k) in Hk; exact Hk).
  split.
  - change 0%Z with (Qfloor 0). apply Qfloor_resp_le.
    apply Qmult_le_0_compat; [exact H0 | apply Qlt_le_weak, Hk'].
  - rewrite Zlt_Qlt. eapply Qle_lt_trans; [apply Qfloor_le|].
    apply Qlt_le_trans with (1 * inject_Z k)%Q.
    + apply Qmult_lt_compat_r; assumption.
    + rewrite Qmult_1_l. apply Qle_refl.
Qed.

Lemma includes_spec (array : list string) (x : string) :
  includes array x = true <-> x ∈ array.
Proof.
  unfold includes. rewrite existsb_exists, list_elem_of_In. split.
  - intros (y & Hy & E). apply String.eqb_eq in E. subst. exact Hy.
  - intros Hx. exists x. split; [exact Hx | apply String.eqb_refl].
Qed.

Variable random : nat -> Q.

Lemma pick_label_step (j : Z) (paperLabels : list string) (n : nat) :
  labels_invariant paperLabels ->
  labels_invariant (fst (pick_label random j paperLabels n))
  /\ (length paperLabels <= length (fst (pick_label random j paperLabels n))
      <= S (length paperLabels))%nat.
Proof.
  intros [Hnd Hhd]. unfold pick_label, bindR, Math_random, retR. simpl.
  set (randomLabel := at_index labels_pool _).
  destruct (includes paperLabels randomLabel) eqn:E; simpl.
  - split; [split; assumption | lia].
  - split; [split|].
    + apply NoDup_app. split; [exact Hnd|]. split; [|apply NoDup_singleton].
      intros x Hx ->%list_elem_of_singleton.
      apply includes_spec in Hx. congruence.
    + destruct paperLabels; [discriminate | exact Hhd].
    + rewrite length_app. simpl. lia.
Qed.

Lemma pick_labels_loop (js : list Z) (paperLabels : list string) (n : nat) :
  labels_invariant paperLabels ->
  labels_invariant (fst (for_each js (pick_label random) paperLabels n))
  /\ (length paperLabels
      <= length (fst (for_each js (pick_label random) paperLabels n))
      <= length paperLabels + length js)%nat.
Proof.
  revert paperLabels n.
  induction js as [|j js IH]; intros paperLabels n Hinv; simpl.
  - split; [exact Hinv | lia].
  - unfold bindR.
    destruct (pick_label_step j paperLabels n Hinv) as [Hinv1 Hlen1].
    destruct (pick_label random j paperLabels n) as [pl1 n1]; simpl in *.
    destruct (IH pl1 n1 Hinv1) as [Hinv2 Hlen2].
    split; [exact Hinv2 | lia].
Qed.

(** The first label drawn is never "Paper", so it is always pushed. *)
Lemma first_label_pushed (j : Z) (n : nat) :
  (0 <= random n)%Q -> (random n < 1)%Q ->
  length (fst (pick_label random j ["Paper"] n)) = 2%nat.
Proof.
  intros H0 H1. unfold pick_label, bindR, Math_random, retR.
  pose proof (floor_of_draw (random n) 6 H0 H1 eq_refl) as Hr.
  change (inject_Z (Z.of_nat (length labels_pool) - 1)) with (inject_Z 6).
  cbv beta iota.
  assert (Hcases : exists k, (0 <= k < 6)%nat
            /\ Math_floor (random n * inject_Z 6) = Z.of_nat k).
  { exists (Z.to_nat (Math_floor (random n * inject_Z 6))). lia. }
  destruct Hcases as (k & Hk & ->).
  do 6 (destruct k as [|k]; [reflexivity|]). lia.
Qed.

Hypothesis random_in_unit : forall n, (0 <= random n)%Q /\ (random n < 1)%Q.

Lemma make_paper_step (i : Z) (papers : list Paper) (n : nat) :
  exists p n', make_paper random i papers n = (papers ++ [p], n') /\ generated_ok i p.
Proof.
  unfold make_paper, bindR, Math_random, retR.
  destruct (random_in_unit n) as [H0 H1].
  pose proof (floor_of_draw (random n) 3 H0 H1 eq_refl) as Hr.
  change (inject_Z 3) with 3%Q in Hr.
  assert (Hk : exists k, (k < 3)%nat /\ Math_floor (random n * 3) = Z.of_nat k).
  { exists (Z.to_nat (Math_floor (random n * 3))). lia. }
  destruct Hk as (k & Hk & ->).
  rewrite (seqZ_cons 0 (Z.of_nat k + 1)) by lia.
  replace (Z.pred (Z.of_nat k + 1)) with (Z.of_nat k) by lia.
  simpl for_each. unfold bindR.
  assert (Hinit : labels_invariant ["Paper"]).
  { split; [apply NoDup_singleton | reflexivity]. }
  destruct (pick_label_step 0 ["Paper"] (S n) Hinit) as [Hinv1 _].
  destruct (random_in_unit (S n)) as [H0' H1'].
  pose proof (first_label_pushed 0 (S n) H0' H1') as Hlen1.
  destruct (pick_label random 0 ["Paper"] (S n)) as [pl1 n1]; simpl in Hinv1, Hlen1.
  destruct (pick_labels_loop (seqZ (Z.succ 0) (Z.of_nat k)) pl1 n1 Hinv1) as [Hinv2 Hlen2].
  rewrite length_seqZ in Hlen2.
  destruct (for_each (seqZ (Z.succ 0) (Z.of_nat k)) (pick_label random) pl1 n1)
    as [paperLabels n2]; simpl in Hinv2, Hlen2.
  eexists _, _. split; [reflexivity|].
  split; [reflexivity|]. split; [exact Hinv2|]. simpl. lia.
Qed.

Lemma generate_loop (numbers : list Z) (papers : list Paper) (n : nat) :
  exists generated,
    fst (for_each numbers (make_paper random) papers n) = papers ++ generated
    /\ Forall2 generated_ok numbers generated.
Proof.
  revert papers n. induction numbers as [|i numbers IH]; intros papers n; simpl.
  - exists []. rewrite app_nil_r. split; [reflexivity | constructor].
  - unfold bindR.
    destruct (make_paper_step i papers n) as (p & n' & -> & Hp).
    destruct (IH (papers ++ [p]) n') as (generated & -> & Hgen).
    exists (p :: generated). rewrite <- app_assoc. split; [reflexivity|].
    constructor; assumption.
Qed.

(** C7: whatever [Math.random] returns in [0, 1), the exported list has 1086
    records; it starts with the 11 static records; the ids are the decimal
    forms of 915, 916, ..., 2000 in this order; every record's labels are
    distinct and start with "Paper"; and a generated record has between 2
    and 4 labels. *)
Theorem fallback_dataset_well_formed :
  length (allPapers random) = 1086%nat
  /\ take 11 (allPapers random) = tempPapers
  /\ map id (allPapers random) = map toString (seqZ 915 1086)
  /\ Forall (fun p => NoDup (labels p) /\ head (labels p) = Some "Paper")
       (allPapers random)
  /\ Forall (fun p => (2 <= length (labels p) <= 4)%nat) (drop 11 (allPapers random)).
Proof.
  unfold allPapers, generateMorePapers.
  destruct (generate_loop (seqZ 926 (2000 - 926 + 1)) tempPapers 0%nat)
    as (generated & -> & Hgen).
  assert (Hlen : length generated = 1075%nat).
  { rewrite <- (Forall2_length _ _ _ Hgen), length_seqZ. reflexivity. }
  split; [|split; [|split; [|split]]].
  - rewrite length_app, Hlen. reflexivity.
  - apply (take_app_length' tempPapers generated). reflexivity.
  - rewrite map_app.
    assert (Hids : map id generated = map toString (seqZ 926 (2000 - 926 + 1))).
    { clear Hlen. induction Hgen as [|i p numbers ps [Hid _] _ IH]; simpl;
        [reflexivity | rewrite Hid, IH; reflexivity]. }
    rewrite Hids. vm_compute. reflexivity.
  - apply Forall_app. split.
    + apply (bool_decide_unpack _). vm_compute. reflexivity.
    + clear Hlen. induction Hgen as [|i p numbers ps (_ & Hinv & _) _ IH];
        constructor; assumption.
  - rewrite (drop_app_length' tempPapers generated) by reflexivity.
    clear Hlen. induction Hgen as [|i p numbers ps (_ & _ & Hl) _ IH];
      constructor; assumption.
Qed.

End Fallback.

Lemma fallback_dataset_well_formed_witness :
  (forall n, (0 <= cycling_draws n)%Q /\ (cycling_draws n < 1)%Q)
  /\ length (TempPapers.allPapers cycling_draws) = 1086%nat.
Proof.
  assert (H : forall n, (0 <= cycling_draws n)%Q /\ (cycling_draws n < 1)%Q).
  { intros n. unfold cycling_draws, Qle, Qlt. simpl.
    pose proof (Nat.mod_upper_bound n 7). lia. }
  split; [exact H|].
  exact (proj1 (fallback_dataset_well_formed cycling_draws H)).
Defined.

(** ** Further properties of the service *)

(** Case analysis on one run of a computation [m h]: its result and final
    transcript are named, and the environment's answers are split once. *)
Ltac run_once :=
  unfold emitted, thrown;
  match goal with
  | |- context [snd (?m ?h)] =>
      let res := fresh "res" in
      let t := fresh "t" in
      let E := fresh "Erun" in
      destruct (m h) as [res t] eqn:E; revert E
  end;
  service_unfold; repeat case_match; intros ?; simplify_eq.

(** X1: [verifyConnection] never returns [false]: it returns [true], and
    then no driver call of it failed, or it throws, and then one did. *)
Theorem verifyConnection_true_or_throws (w : World) (cfg : Neo4jConfig) (h : Trace) :
  match fst (Neo4jService.verifyConnection w cfg h) with
  | inr b => b = true
             /\ driver_errors (emitted (Neo4jService.verifyConnection w cfg) h) = []
  | inl _ => driver_errors (emitted (Neo4jService.verifyConnection w cfg) h) <> []
  end.
Proof.
  run_once; trace_norm; simpl; auto; discriminate.
Qed.

(** X2: an error answered to a query or to [verifyConnectivity] inside
    [verifyConnection] is replaced by the message chosen from its code, when
    the session then closes. *)
Theorem verifyConnection_classifies (w : World) (cfg : Neo4jConfig) (h : Trace)
    (e : JsError) :
  In e (try_errors (emitted (Neo4jService.verifyConnection w cfg) h)) ->
  closes (emitted (Neo4jService.verifyConnection w cfg) h) = [None] ->
  thrown (Neo4jService.verifyConnection w cfg) h
    = Some (Error (verification_message e)).
Proof.
  run_once; trace_norm; simpl.
  all: intros Hin Hclose; simplify_eq/=.
  all: repeat match goal with H : _ \/ _ |- _ => destruct H end;
       simplify_eq/=; try contradiction.
  all: unfold verification_message; repeat case_match;
       first [reflexivity | congruence].
Qed.

Lemma verifyConnection_classifies_witness :
  thrown (Neo4jService.verifyConnection unauthorized_world sample_config) []
    = Some (Error "Authentication failed. Please check your credentials.").
Proof.
  apply (verifyConnection_classifies unauthorized_world sample_config []
           security_error).
  - vm_compute. left. reflexivity.
  - reflexivity.
Defined.

Lemma mapM_Forall2 {A B} (f : A -> M B) (R : A -> B -> Prop) :
  (forall x h y h', f x h = (inr y, h') -> R x y) ->
  forall l h ys h', mapM f l h = (inr ys, h') -> Forall2 R l ys.
Proof.
  intros Hf. induction l as [|x xs IH]; intros h ys h'; simpl.
  - unfold ret. intros [= <- <-]. constructor.
  - unfold bind. destruct (f x h) as [[e|y] h1] eqn:Ex; [discriminate|].
    destruct (mapM f xs h1) as [[e|zs] h2] eqn:Exs; [discriminate|].
    unfold ret. intros [= <- <-]. constructor; [eapply Hf, Ex | eapply IH, Exs].
Qed.

Lemma paper_of_record_matches w record h paper h' :
  Neo4jService.paper_of_record w record h = (inr paper, h') ->
  paper_matches record paper.
Proof.
  unfold Neo4jService.paper_of_record, bind, lift, console_log, emit, ret,
    Neo4jService.record_get, Neo4jService.identity_toString,
    Neo4jService.get_properties.
  destruct (record !! "n") as [node|] eqn:En; [|discriminate].
  destruct (record !! "labels") as [labels|] eqn:El;
    destruct node as [| | | | |ident props]; try discriminate.
  intros [= <- <-]. exists ident, props, labels.
  unfold Neo4jService.paper_object, Neo4jService.spread. simpl.
  split; [exact En|]. split; [exact El|]. split; [apply lookup_insert_eq|].
  split.
  - intros k v Hk Hv. rewrite lookup_insert_ne by congruence.
    apply lookup_union_Some_l, Hv.
  - rewrite lookup_insert_ne by discriminate. rewrite lookup_union.
    destruct (props !! "id"); simpl; rewrite lookup_singleton_eq; reflexivity.
Qed.

(** X3: when [getAllPapers] returns, it returns one object per record of the
    answer to its MATCH query, in order; each record holds a node, the
    object's [labels] is the record's labels column (also when the node has
    a property of that name), and the node's other properties are kept. *)
Theorem getAllPapers_objects (w : World) (cfg : Neo4jConfig) (h : Trace)
    (papers : list JsObject) :
  fst (Neo4jService.getAllPapers w cfg h) = inr papers ->
  exists result,
    In (EvRun (service_session cfg) Neo4jService.MATCH_ALL [] (inr result))
       (emitted (Neo4jService.getAllPapers w cfg) h)
    /\ Forall2 paper_matches (records result) papers.
Proof.
  service_unfold. repeat case_match; simplify_eq/=; try discriminate.
  all: intros [= <-].
  all: match goal with
       | H : mapM _ (records ?r) ?h0 = (inr _, ?h1) |- _ =>
           exists r;
           destruct (mapM_consoles (Neo4jService.paper_of_record w) (records r)
                       (paper_of_record_consoles w) h0) as (evs & E & _);
           rewrite H in E; simpl in E; subst h1;
           split; [| eapply mapM_Forall2, H; intros; eapply paper_of_record_matches; eassumption]
       end.
  all: trace_norm; rewrite ?in_app_iff; simpl; intuition auto.
Qed.

Lemma getAllPapers_objects_witness :
  exists result,
    In (EvRun (service_session sample_config) Neo4jService.MATCH_ALL [] (inr result))
       (emitted (Neo4jService.getAllPapers two_papers_world sample_config) [])
    /\ Forall2 paper_matches (records result)
         (match fst (Neo4jService.getAllPapers two_papers_world sample_config []) with
          | inr papers => papers
          | inl _ => []
          end).
Proof.
  apply (getAllPapers_objects two_papers_world sample_config []).
  vm_compute. reflexivity.
Defined.

(** ** Further properties of the loader *)

(** X4: whatever the environment does, a run of the effect ends with
    [loading] cleared. *)
Theorem effect_clears_loading (w : World) (cfg : Neo4jConfig)
    (st : StarView.State) (h : Trace) :
  StarView.loading (fst (StarView.run_effect w cfg st h)) = false.
Proof.
  component_unfold.
  destruct (StarView.shouldFetchNewData w (StarView.lastFetchTime st) h)
    as [[e|[|]] h0]; simpl; try reflexivity.
  destruct (Neo4jService.verifyConnection w cfg h0) as [[e|[|]] h1]; simpl;
    try reflexivity.
  destruct (Neo4jService.getAllPapers w cfg h1) as [[e|data] h2]; simpl;
    try reflexivity.
  destruct (length (StarView.names_of data) =? 0)%nat; reflexivity.
Qed.

(** X5: when a due fetch fails, in [verifyConnection] or in [getAllPapers],
    the effect keeps the papers and the fetch time it had, stores the
    error's message, and the component then shows the error view (for a
    message that is not empty). *)
Theorem failed_fetch_keeps_data (w : World) (cfg : Neo4jConfig)
    (st : StarView.State) (h h0 h1 : Trace) (e : JsError) :
  StarView.shouldFetchNewData w (StarView.lastFetchTime st) h = (inr true, h0) ->
  (Neo4jService.verifyConnection w cfg h0 = (inl e, h1)
   \/ exists h', Neo4jService.verifyConnection w cfg h0 = (inr true, h')
                 /\ Neo4jService.getAllPapers w cfg h' = (inl e, h1)) ->
  StarView.papers (fst (StarView.run_effect w cfg st h)) = StarView.papers st
  /\ StarView.lastFetchTime (fst (StarView.run_effect w cfg st h))
     = StarView.lastFetchTime st
  /\ StarView.error (fst (StarView.run_effect w cfg st h)) = Some (message e)
  /\ (message e <> "" ->
      StarView.render (fst (StarView.run_effect w cfg st h)) = StarView.ErrorView (message e)).
Proof.
  intros Hdue Hfail. component_unfold. rewrite Hdue. simpl.
  assert (Hview : forall st', StarView.loading st' = false ->
            StarView.error st' = Some (message e) -> message e <> "" ->
            StarView.render st' = StarView.ErrorView (message e)).
  { intros st' Hl He Hne. unfold StarView.render. rewrite Hl, He.
    destruct (String.eqb_spec (message e) ""); [contradiction | reflexivity]. }
  destruct Hfail as [Hv | (h' & Hv & Ha)].
  - rewrite Hv. simpl. repeat split; try reflexivity. apply Hview; reflexivity.
  - rewrite Hv. simpl. rewrite Ha. simpl. repeat split; try reflexivity.
    apply Hview; reflexivity.
Qed.

Lemma failed_fetch_keeps_data_witness :
  StarView.papers
    (fst (StarView.run_effect failing_query_world sample_config stale_state []))
  = ["Innovation"].
Proof.
  refine (proj1 (failed_fetch_keeps_data failing_query_world sample_config stale_state
                   [] [EvDateNow 1700000000000]
                   (snd (Neo4jService.verifyConnection failing_query_world sample_config
                           [EvDateNow 1700000000000]))
                   (Error "Neo4j service is not available. Please check if the database is running and port 7687 is accessible.")
                   _ _)).
  - vm_compute. reflexivity.
  - left. vm_compute. reflexivity.
Defined.

(** X6: after a run of the effect that fetched, the run that React starts
    because [lastFetchTime] changed fetches nothing when less than 24 hours
    have passed: it makes no driver call and leaves the state as it is. *)
Theorem refetch_is_cache_hit (w : World) (cfg : Neo4jConfig) (st : StarView.State)
    (h h0 h1 h2 : Trace) (neo4jData : list JsObject) :
  StarView.shouldFetchNewData w (StarView.lastFetchTime st) h = (inr true, h0) ->
  Neo4jService.verifyConnection w cfg h0 = (inr true, h1) ->
  Neo4jService.getAllPapers w cfg h1 = (inr neo4jData, h2) ->
  Date_now w h2 <> 0 ->
  Date_now w (h2 ++ [EvDateNow (Date_now w h2)]) - Date_now w h2 < 86400000 ->
  StarView.run_effect w cfg (fst (StarView.run_effect w cfg st h))
    (snd (StarView.run_effect w cfg st h))
  = (fst (StarView.run_effect w cfg st h),
     snd (StarView.run_effect w cfg st h)
       ++ [EvDateNow (Date_now w (h2 ++ [EvDateNow (Date_now w h2)]));
           EvConsole LOG "Using cached data from:"]).
Proof.
  intros Hdue Hconn Hall Hnow Hfresh.
  rewrite (fetchData_success w cfg st h h0 h1 h2 neo4jData Hdue Hconn Hall).
  cbv zeta. cbn [fst snd].
  set (h3 := h2 ++ [EvDateNow (Date_now w h2)]) in *.
  assert (Hskip : forall st1, StarView.lastFetchTime st1 = Some (Date_now w h2) ->
            StarView.loading st1 = false ->
            StarView.run_effect w cfg st1 h3
            = (st1, h3 ++ [EvDateNow (Date_now w h3); EvConsole LOG "Using cached data from:"])).
  { intros st1 Ht Hl. component_unfold. rewrite Ht.
    unfold StarView.shouldFetchNewData, bind, ret, StarView.Date_now_call.
    destruct (Z.eqb_spec (Date_now w h2) 0) as [|_]; [contradiction|]. simpl.
    rewrite hours_elapsed_ge_24_spec.
    destruct (Z.leb_spec 86400000 (Date_now w h3 - Date_now w h2)) as [|_]; [lia|].
    simpl. rewrite <- app_assoc. simpl. f_equal.
    destruct st1; simpl in *; subst; reflexivity. }
  destruct (length (StarView.names_of neo4jData) =? 0)%nat; apply Hskip; reflexivity.
Qed.

Lemma refetch_is_cache_hit_witness :
  snd (StarView.run_effect two_papers_world sample_config
         (fst (StarView.run_effect two_papers_world sample_config StarView.initial []))
         (snd (StarView.run_effect two_papers_world sample_config StarView.initial [])))
  = snd (StarView.run_effect two_papers_world sample_config StarView.initial [])
      ++ [EvDateNow 1700000000000; EvConsole LOG "Using cached data from:"].
Proof.
  pose (h1 := snd (Neo4jService.verifyConnection two_papers_world sample_config [])).
  pose (r := Neo4jService.getAllPapers two_papers_world sample_config h1).
  pose (neo4jData := match fst r with inr d => d | inl _ => [] end).
  assert (Hconn : Neo4jService.verifyConnection two_papers_world sample_config []
                  = (inr true, h1)) by (vm_compute; reflexivity).
  assert (Hall : Neo4jService.getAllPapers two_papers_world sample_config h1
                 = (inr neo4jData, snd r)) by (vm_compute; reflexivity).
  exact (f_equal snd
           (refetch_is_cache_hit two_papers_world sample_config StarView.initial
              [] [] h1 (snd r) neo4jData eq_refl Hconn Hall
              ltac:(discriminate) ltac:(reflexivity))).
Defined.



(** ** The label text and the pressed keys *)

(** X8: the label of a node is never empty and never longer than 33 code
    units; a non-empty name of at most 30 code units is shown as it is, a
    longer one as its first 30 code units followed by three dots, and an
    empty one as "Unknown". *)
Theorem displayName_bounds (name : StarView.JsString) :
  StarView.displayName name <> []
  /\ (length (StarView.displayName name) <= 33)%nat
  /\ match name with
     | [] => StarView.displayName name = StarView.code_units "Unknown"
     | _ :: _ =>
         if (length name <=? 30)%nat
         then StarView.displayName name = name
         else exists front,
                StarView.displayName name = front ++ StarView.code_units "..."
                /\ length front = 30%nat
                /\ front `prefix_of` name
     end.
Proof.
  unfold StarView.displayName.
  destruct name as [|u rest]; [repeat split; [discriminate | simpl; lia]|].
  set (name := u :: rest).
  change (length name =? 0)%nat with false. cbn [negb andb].
  destruct (Nat.ltb_spec 30 (length name)) as [Hlong|Hshort].
  - destruct (Nat.leb_spec (length name) 30) as [|_]; [lia|].
    assert (Hlen : length (take 30 name) = 30%nat) by (rewrite length_take; lia).
    split; [|split].
    + intros E. apply (f_equal length) in E.
      rewrite length_app, Hlen in E. discriminate E.
    + rewrite length_app, Hlen. simpl. lia.
    + exists (take 30 name).
      split; [reflexivity|]. split; [exact Hlen | apply prefix_take].
  - destruct (Nat.leb_spec (length name) 30) as [_|]; [|lia].
    split; [discriminate|]. split; [lia | reflexivity].
Qed.

(** Two names of the fallback dataset: the first has 28 code units and is
    shown whole, the second has 45 and is cut after 30. *)
Lemma displayName_of_static_names :
  length (StarView.code_units "学生会 (Student Council - SCIS)") = 28%nat
  /\ StarView.displayName (StarView.code_units "学生会 (Student Council - SCIS)")
     = StarView.code_units "学生会 (Student Council - SCIS)"
  /\ length (StarView.code_units "国际学生活动 (UIC International Student Activities)")
     = 45%nat
  /\ StarView.displayName
       (StarView.code_units "国际学生活动 (UIC International Student Activities)")
     = StarView.code_units "国际学生活动 (UIC International Stud...".
Proof. vm_compute. auto. Qed.

Section KeyboardFacts.
Variable toLowerCase : string -> string.

(** X9: pressing one of W, A, S, D marks that key as pressed and counts as
    manual input, releasing it marks it as not pressed, and neither changes
    the state of the other three movement keys. *)
Theorem move_key_press_release (prev : StarView.Keys)
    (down up : StarView.KeyboardEvent) (k other : string) :
  toLowerCase (StarView.ev_key down) = k ->
  toLowerCase (StarView.ev_key up) = k ->
  StarView.is_move_key k = true ->
  StarView.is_move_key other = true ->
  other <> k ->
  StarView.pressed (StarView.handleKeyDown toLowerCase down prev) k = true
  /\ StarView.hasManualInput (StarView.handleKeyDown toLowerCase down prev) = true
  /\ StarView.pressed
       (StarView.handleKeyUp toLowerCase up
          (StarView.handleKeyDown toLowerCase down prev)) k = false
  /\ StarView.pressed (StarView.handleKeyDown toLowerCase down prev) other
     = StarView.pressed prev other
  /\ StarView.pressed (StarView.handleKeyUp toLowerCase up prev) other
     = StarView.pressed prev other.
Proof.
  intros Hdown Hup Hk Hother Hne.
  assert (Hkeys : forall x, StarView.is_move_key x = true ->
            (x = "w" \/ x = "a" \/ x = "s" \/ x = "d")).
  { intros x Hx. unfold StarView.is_move_key in Hx. simpl in Hx.
    repeat (apply orb_prop in Hx as [Hx|Hx]; [apply String.eqb_eq in Hx; auto|]).
    discriminate. }
  assert (Hset : forall key v (m : StarView.Keys) x, x <> key ->
            StarView.pressed (StarView.set_key key v m) x = StarView.pressed m x).
  { intros key v m x Hx. unfold StarView.pressed, StarView.set_key.
    destruct v; [rewrite lookup_insert_ne by congruence
                | rewrite lookup_delete_ne by congruence]; reflexivity. }
  assert (Hget : forall key b (m : StarView.Keys),
            StarView.pressed (StarView.set_key key (Some b) m) key = b).
  { intros key b m. unfold StarView.pressed, StarView.set_key.
    rewrite lookup_insert_eq. reflexivity. }
  assert (Hk' : k <> "shift" /\ k <> "space").
  { destruct (Hkeys k Hk) as [-> | [-> | [-> | ->]]]; split; discriminate. }
  assert (Ho' : other <> "shift" /\ other <> "space").
  { destruct (Hkeys other Hother) as [-> | [-> | [-> | ->]]]; split; discriminate. }
  destruct Hk' as [Hk1 Hk2]. destruct Ho' as [Ho1 Ho2].
  unfold StarView.handleKeyDown, StarView.handleKeyUp.
  rewrite Hdown, Hup, Hk. cbn [orb].
  assert (Hp : forall v1 v2 (m : StarView.Keys),
            StarView.pressed
              (StarView.set_key "shift" v1
                 (StarView.set_key "space" v2 (StarView.set_key k (Some true) m))) k
            = true).
  { intros. rewrite !Hset by assumption. apply Hget. }
  split; [apply Hp|]. split.
  - unfold StarView.hasManualInput.
    destruct (Hkeys k Hk) as [-> | [-> | [-> | ->]]]; rewrite Hp;
      rewrite ?orb_true_r; reflexivity.
  - split; [rewrite !Hset by assumption; apply Hget|].
    split; rewrite !Hset by assumption; reflexivity.
Qed.

(** X10: a key-up of a key that is neither W, A, S, D nor the space bar is
    ignored, so after a key-down with Shift held the speed stays 10 when
    the Shift key itself is released. *)
Theorem shift_release_ignored (prev : StarView.Keys)
    (down up : StarView.KeyboardEvent) :
  StarView.shiftKey down = true ->
  StarView.is_move_key (toLowerCase (StarView.ev_key up)) = false ->
  StarView.ev_key up <> " " ->
  StarView.handleKeyUp toLowerCase up (StarView.handleKeyDown toLowerCase down prev)
    = StarView.handleKeyDown toLowerCase down prev
  /\ StarView.moveSpeed
       (StarView.handleKeyUp toLowerCase up
          (StarView.handleKeyDown toLowerCase down prev)) = 10.
Proof.
  intros Hshift Hup Hspace.
  assert (E : StarView.handleKeyUp toLowerCase up
                (StarView.handleKeyDown toLowerCase down prev)
              = StarView.handleKeyDown toLowerCase down prev).
  { unfold StarView.handleKeyUp at 1. rewrite Hup.
    destruct (String.eqb_spec (StarView.ev_key up) " "); [contradiction | reflexivity]. }
  split; [exact E|]. rewrite E.
  unfold StarView.handleKeyDown. rewrite Hshift, orb_true_r.
  unfold StarView.moveSpeed, StarView.pressed, StarView.set_key at 1.
  rewrite lookup_insert_eq. reflexivity.
Qed.

End KeyboardFacts.

Lemma move_key_press_release_witness :
  StarView.pressed
    (StarView.handleKeyUp lower_ascii (StarView.mkKeyboardEvent "W" false)
       (StarView.handleKeyDown lower_ascii (StarView.mkKeyboardEvent "W" true)
          StarView.initial_keys)) "w" = false.
Proof.
  refine (proj1 (proj2 (proj2
            (move_key_press_release lower_ascii StarView.initial_keys
               (StarView.mkKeyboardEvent "W" true) (StarView.mkKeyboardEvent "W" false)
               "w" "a" _ _ _ _ _)))); try reflexivity.
  discriminate.
Defined.

Lemma shift_release_ignored_witness :
  StarView.moveSpeed
    (StarView.handleKeyUp lower_ascii (StarView.mkKeyboardEvent "Shift" false)
       (StarView.handleKeyDown lower_ascii (StarView.mkKeyboardEvent "Shift" true)
          StarView.initial_keys)) = 10.
Proof.
  refine (proj2 (shift_release_ignored lower_ascii StarView.initial_keys
                   (StarView.mkKeyboardEvent "Shift" true)
                   (StarView.mkKeyboardEvent "Shift" false) _ _ _));
    [reflexivity | reflexivity | discriminate].
Defined.

(** ** Further properties of the fallback dataset *)

Section FallbackIds.
Import TempPapers.
Variable random : nat -> Q.




End FallbackIds.

Section FallbackPools.
Import TempPapers.
Variable random : nat -> Q.
Hypothesis random_in_unit : forall n, (0 <= random n)%Q /\ (random n < 1)%Q.

Lemma at_index_in (array : list string) (i : Z) :
  (0 <= i < Z.of_nat (length array))%Z -> at_index array i ∈ array.
Proof.
  intros Hi. unfold at_index.
  destruct (Z.ltb_spec i 0) as [|_]; [lia|].
  apply list_elem_of_In, nth_In. lia.
Qed.

Lemma drawn_index (n : nat) (array : list string) :
  (0 < Z.of_nat (length array))%Z ->
  at_index array (Math_floor (random n * inject_Z (Z.of_nat (length array)))) ∈ array.
Proof.
  intros Hlen. destruct (random_in_unit n) as [H0 H1].
  apply at_index_in, floor_of_draw; assumption.
Qed.

Lemma pick_label_pool (j : Z) (paperLabels : list string) (n : nat) :
  Forall (fun label => label ∈ labels_pool) paperLabels ->
  Forall (fun label => label ∈ labels_pool) (fst (pick_label random j paperLabels n)).
Proof.
  intros Hall. unfold pick_label, bindR, Math_random, retR. cbv beta iota zeta.
  destruct (random_in_unit n) as [H0 H1].
  pose proof (floor_of_draw (random n) 6 H0 H1 eq_refl) as Hr.
  change (inject_Z (Z.of_nat (length labels_pool) - 1)) with (inject_Z 6).
  destruct (negb _); cbn [fst]; [|exact Hall].
  apply Forall_app. split; [exact Hall|]. constructor; [|constructor].
  apply at_index_in. change (Z.of_nat (length labels_pool)) with 7%Z. lia.
Qed.

Lemma pick_labels_pool (js : list Z) (paperLabels : list string) (n : nat) :
  Forall (fun label => label ∈ labels_pool) paperLabels ->
  Forall (fun label => label ∈ labels_pool)
    (fst (for_each js (pick_label random) paperLabels n)).
Proof.
  revert paperLabels n. induction js as [|j js IH]; intros paperLabels n Hall;
    simpl; [exact Hall|].
  unfold bindR. pose proof (pick_label_pool j paperLabels n Hall) as H1.
  destruct (pick_label random j paperLabels n) as [pl1 n1]. apply IH, H1.
Qed.

Lemma make_paper_from_pools (i : Z) (papers : list Paper) (n : nat) :
  exists p, fst (make_paper random i papers n) = papers ++ [p] /\ from_pools p.
Proof.
  unfold make_paper, bindR, Math_random, retR.
  assert (Hinit : Forall (fun label => label ∈ labels_pool) ["Paper"]).
  { constructor; [|constructor]. apply list_elem_of_here. }
  pose proof (pick_labels_pool (seqZ 0 (Math_floor (random n * 3) + 1)) ["Paper"]
                (S n) Hinit) as Hlabels.
  destruct (for_each _ _ _ _) as [paperLabels n1]. simpl in Hlabels. cbv zeta.
  eexists. split; [reflexivity|]. split; [exact Hlabels|]. simpl.
  eexists _, _. split; [|split; [|reflexivity]].
  - apply (drawn_index n1 activities). simpl. lia.
  - destruct (random_in_unit (S n1)) as [H0 H1].
    apply at_index_in. change 4%Q with (inject_Z 4).
    apply (floor_of_draw (random (S n1)) 4 H0 H1). reflexivity.
Qed.

Lemma generate_from_pools (numbers : list Z) (papers : list Paper) (n : nat) :
  exists generated,
    fst (for_each numbers (make_paper random) papers n) = papers ++ generated
    /\ Forall from_pools generated.
Proof.
  revert papers n. induction numbers as [|i numbers IH]; intros papers n; simpl.
  - exists []. rewrite app_nil_r. split; [reflexivity | constructor].
  - unfold bindR. destruct (make_paper_from_pools i papers n) as (p & E & Hp).
    destruct (make_paper random i papers n) as [ps n']. simpl in E. subst ps.
    destruct (IH (papers ++ [p]) n') as (generated & -> & Hgen).
    exists (p :: generated). rewrite <- app_assoc. split; [reflexivity|].
    constructor; assumption.
Qed.

(** X12: for draws in [0, 1), every generated record has all its labels in
    the label pool and a name of the form "activity (school)" with the
    activity and the school taken from the two lists of the generator; no
    index ever falls outside an array. *)
Theorem generated_records_from_pools :
  Forall from_pools (drop 11 (allPapers random)).
Proof.
  unfold allPapers, generateMorePapers.
  destruct (generate_from_pools (seqZ 926 (2000 - 926 + 1)) tempPapers 0%nat)
    as (generated & -> & Hgen).
  rewrite (drop_app_length' tempPapers generated) by reflexivity.
  exact Hgen.
Qed.

End FallbackPools.

Lemma generated_records_from_pools_witness :
  (forall n, (0 <= cycling_draws n)%Q /\ (cycling_draws n < 1)%Q)
  /\ Forall from_pools (drop 11 (TempPapers.allPapers cycling_draws)).
Proof.
  assert (H : forall n, (0 <= cycling_draws n)%Q /\ (cycling_draws n < 1)%Q).
  { intros n. unfold cycling_draws, Qle, Qlt. simpl.
    pose proof (Nat.mod_upper_bound n 7). lia. }
  split; [exact H|].
  exact (generated_records_from_pools cycling_draws H).
Defined.

(** ** The driver's life: constructor, close, and the test script *)

Ltac life_once :=
  unfold emittedL, thrownL, Lifecycle.script;
  match goal with
  | |- context [?m ?h] =>
      match type of (m h) with
      | ((JsError + _) * Lifecycle.LTrace)%type =>
          let res := fresh "res" in
          let t := fresh "t" in
          let E := fresh "Erun" in
          destruct (m h) as [res t] eqn:E; revert E
      end
  end;
  unfold Lifecycle.constructor, Lifecycle.close, Lifecycle.testConnection,
    Lifecycle.try_catch_finallyL, Lifecycle.try_catchL, Lifecycle.bindL,
    Lifecycle.retL, Lifecycle.throwL, Lifecycle.liftL, Lifecycle.logL,
    Lifecycle.neo4j_driver_call, Lifecycle.session_call, Lifecycle.run_call,
    Lifecycle.session_close_call, Lifecycle.driver_close_call;
  simpl; repeat case_match; intros ?; simplify_eq.

Lemma prefix_append (s t : string) : String.prefix s (s ++ t) = true.
Proof.
  induction s as [|c s IH]; simpl; [destruct t; reflexivity|].
  destruct (Ascii.ascii_dec c c); [exact IH | contradiction].
Qed.

(** X13: the constructor never calls [neo4j.driver] with a URI that starts
    with neither "bolt://" nor "neo4j://"; with such a URI it calls it once;
    it returns exactly when that call returned a driver; and the message of
    every exception it throws starts with "Neo4j initialization failed: ". *)
Theorem constructor_outcome (w : Lifecycle.LWorld) (cfg : Neo4jConfig)
    (h : Lifecycle.LTrace) :
  driver_creations (emittedL (Lifecycle.constructor w cfg) h)
    = (if Lifecycle.startsWith (uri cfg) "bolt://"
          || Lifecycle.startsWith (uri cfg) "neo4j://"
       then [uri cfg] else [])
  /\ match thrownL (Lifecycle.constructor w cfg) h with
     | None =>
         In (Lifecycle.LDriver (uri cfg) (user cfg) (password cfg) (inr true))
            (emittedL (Lifecycle.constructor w cfg) h)
     | Some e =>
         String.prefix "Neo4j initialization failed: " (message e) = true
         /\ ~ In (Lifecycle.LDriver (uri cfg) (user cfg) (password cfg) (inr true))
                 (emittedL (Lifecycle.constructor w cfg) h)
     end.
Proof.
  destruct (Lifecycle.startsWith (uri cfg) "bolt://") eqn:Hbolt;
    destruct (Lifecycle.startsWith (uri cfg) "neo4j://") eqn:Hneo.
  all: life_once; rewrite <- ?app_assoc, ?drop_app_length; simpl.
  all: try match goal with
           | H : negb _ && negb _ = _ |- _ =>
               rewrite Hbolt, Hneo in H; discriminate H
           end.
  all: split; [reflexivity|].
  all: try match goal with
           | H : negb ?b = _ |- _ => destruct b; simpl in H; try discriminate H
           end.
  all: first
         [ solve [simpl; auto 6]
         | split;
           [ first [reflexivity | apply prefix_append]
           | intros Hin; repeat destruct Hin as [Hin|Hin]; simplify_eq;
             try contradiction ] ].
Qed.

(** X14: [close] of the service never throws: an error of [driver.close] is
    logged and dropped; it calls [driver.close] exactly once. *)
Theorem close_never_throws (w : Lifecycle.LWorld) (h : Lifecycle.LTrace) :
  fst (Lifecycle.close w h) = inr tt
  /\ length (driver_closes (emittedL (Lifecycle.close w) h)) = 1%nat.
Proof.
  life_once; rewrite <- ?app_assoc, ?drop_app_length; simpl.
  all: try match goal with u : unit |- _ => destruct u end.
  all: split; reflexivity.
Qed.

(** X15: the exit code of the test script depends on the driver's creation,
    on [driver.session], on [session.close] and on [driver.close] only: the
    script is forced to exit with code 1 exactly when one of these failed,
    whatever the two queries answered. *)
Theorem script_exit_code (w : Lifecycle.LWorld) (h : Lifecycle.LTrace) :
  fst (Lifecycle.script w h)
  = forced_exit (lifecycle_errors (emittedL (Lifecycle.testConnection w) h)).
Proof.
  life_once; rewrite <- ?app_assoc, ?drop_app_length; simpl; reflexivity.
Qed.

(** X16: the test script closes the session once when it opened one, and
    calls [driver.close] exactly when that [session.close] completed: if
    closing the session fails the driver is left open. *)
Theorem script_cleanup (w : Lifecycle.LWorld) (h : Lifecycle.LTrace) :
  length (session_closes (emittedL (Lifecycle.testConnection w) h))
    = length (sessions_opened (emittedL (Lifecycle.testConnection w) h))
  /\ length (driver_closes (emittedL (Lifecycle.testConnection w) h))
    = completed (session_closes (emittedL (Lifecycle.testConnection w) h)).
Proof.
  life_once; rewrite <- ?app_assoc, ?drop_app_length; simpl; split; reflexivity.
Qed.

(** ** Further properties of the lookups *)

(** X17: when the query of [getPaperDetails] was answered with no record and
    the session then closed, [getPaperDetails] returns [null]. *)
Theorem getPaperDetails_null_without_row (w : World) (cfg : Neo4jConfig)
    (paperId : JsValue) (h : Trace) (c : SessionConfig) (ps : Params) :
  In (EvRun c Neo4jService.PAPER_DETAILS ps (inr (mkQueryResult [])))
     (emitted (Neo4jService.getPaperDetails w cfg paperId) h) ->
  closes (emitted (Neo4jService.getPaperDetails w cfg paperId) h) = [None] ->
  fst (Neo4jService.getPaperDetails w cfg paperId h) = inr None.
Proof.
  run_once; trace_norm; simpl.
  all: intros Hin Hclose; simplify_eq/=.
  all: repeat match goal with H : _ \/ _ |- _ => destruct H end;
       simplify_eq/=; try contradiction; try reflexivity.
Qed.

Lemma getPaperDetails_null_without_row_witness :
  fst (Neo4jService.getPaperDetails empty_db_world sample_config (VNum 7) [])
  = inr None.
Proof.
  apply (getPaperDetails_null_without_row empty_db_world sample_config (VNum 7) []
           (service_session sample_config) [("paperId", 7)]).
  - vm_compute. auto.
  - reflexivity.
Defined.

(** X18: when [getRelatedPapers] returns, it returns exactly one object per
    record of the answer to its query, so never more than the server sent
    for a query that ends in LIMIT 10. *)
Theorem getRelatedPapers_one_per_record (w : World) (cfg : Neo4jConfig)
    (paperId : JsValue) (h : Trace) (papers : list JsObject) :
  fst (Neo4jService.getRelatedPapers w cfg paperId h) = inr papers ->
  exists i result,
    neo4j_int w paperId = inr i
    /\ In (EvRun (service_session cfg) Neo4jService.RELATED_PAPERS
             [("paperId", i)] (inr result))
          (emitted (Neo4jService.getRelatedPapers w cfg paperId) h)
    /\ length papers = length (records result).
Proof.
  service_unfold. repeat case_match; simplify_eq/=; try discriminate.
  all: intros [= <-].
  all: match goal with
       | H : mapM _ (records ?r) ?h0 = (inr _, ?h1),
         Hi : neo4j_int _ _ = inr ?i |- _ =>
           exists i, r;
           pose proof (mapM_silent (Neo4jService.related_of_record w) (records r)
                         (related_of_record_silent w) h0) as E;
           rewrite H in E; simpl in E; subst h1;
           split; [first [exact Hi | reflexivity]|];
           split; [| eapply mapM_length, H]
       end.
  all: trace_norm; rewrite ?in_app_iff; simpl; intuition auto.
Qed.

Lemma getRelatedPapers_one_per_record_witness :
  exists i result,
    neo4j_int id_property_world (VNum 3) = inr i
    /\ In (EvRun (service_session sample_config) Neo4jService.RELATED_PAPERS
             [("paperId", i)] (inr result))
          (emitted (Neo4jService.getRelatedPapers id_property_world sample_config
                      (VNum 3)) [])
    /\ length (match fst (Neo4jService.getRelatedPapers id_property_world
                            sample_config (VNum 3) []) with
               | inr papers => papers
               | inl _ => []
               end)
       = length (records result).
Proof.
  apply (getRelatedPapers_one_per_record id_property_world sample_config (VNum 3) []).
  vm_compute. reflexivity.
Defined.
